(** * Technical-analysis routines of the stock dashboard

    A shallow embedding of the numeric routines of the dashboard's React
    components (src/App.tsx, components/TechnicalIndicators.tsx,
    components/AIInsights.tsx and the RiskAnalysis component), with the
    properties stated about them.

    Numbers.  A JavaScript number is an IEEE 754 binary64 value, and so is
    Rocq's primitive [float]: [+], [-], [*], [/], [Math.sqrt], [Math.abs],
    [<], [===] and [isNaN] are the primitive operations, evaluated by the
    kernel.  [Math.pow] and [Math.log] have no primitive counterpart and
    are taken as parameters of the routines that call them.

    Integers.  Array indices, lengths and the [period] arguments are
    integer-valued numbers far below 2^53 in the program; index arithmetic
    on them is exact and is written in [Z].  Where such an integer enters
    floating-point arithmetic (a division by [period], say) it is converted
    with [of_Z].

    Arrays.  A JavaScript array is a [list]; [a.push(x)] appends at the
    end; [a[i]] out of range is [undefined], which every use in these
    routines feeds to arithmetic or to a comparison, where it behaves as
    [NaN]. *)

From Stdlib Require Import ZArith List Bool Lia Floats.
From Stdlib Require String Uint63 DecimalString.
From Stdlib Require Import Permutation Sorted.
Import ListNotations.
Import String.StringSyntax.
Delimit Scope string_scope with string.

Set Warnings "-inexact-float".
Set Implicit Arguments.

Open Scope Z_scope.

(** ** The JavaScript layer *)

Module JS.

Abbreviation number := float.

Definition NaN : number := nan.

Definition isNaN (x : number) : bool := PrimFloat.is_nan x.

(** [x > y] and [x === y] on numbers. *)
Definition gt (x y : number) : bool := (y <? x)%float.
Definition lt (x y : number) : bool := (x <? y)%float.
Definition seq_num (x y : number) : bool := (x =? y)%float.

(** Truthiness of a number: [0], [-0] and [NaN] are falsy. *)
Definition truthy (x : number) : bool := negb (isNaN x || (x =? 0)%float).

(** [x || y] on numbers. *)
Definition or_num (x y : number) : number := if truthy x then x else y.

(** The number denoting an integer (exact for |z| < 2^53). *)
Definition of_Z (z : Z) : number :=
  match z with
  | Z0 => 0%float
  | Zpos _ => of_uint63 (Uint63.of_Z z)
  | Zneg _ => (- of_uint63 (Uint63.of_Z (- z)))%float
  end.

Definition len {A} (a : list A) : Z := Z.of_nat (length a).

Definition push {A} (a : list A) (x : A) : list A := a ++ [x].

(** [a[i]] for an array of numbers, [undefined] read as [NaN]. *)
Definition get (a : list number) (i : Z) : number :=
  if i <? 0 then NaN else nth (Z.to_nat i) a NaN.

(** [a.slice(start, stop)], negative arguments counting from the end. *)
Definition rel_index (n k : Z) : Z :=
  if k <? 0 then Z.max (n + k) 0 else Z.min k n.

Definition slice {A} (a : list A) (start stop : Z) : list A :=
  let from := rel_index (len a) start in
  let to := rel_index (len a) stop in
  firstn (Z.to_nat (to - from)) (skipn (Z.to_nat from) a).

(** [a.reduce(f, init)]. *)
Definition reduce {A B} (f : B -> A -> B) (a : list A) (init : B) : B :=
  fold_left f a init.

(** The indices [a, a+1, ..., n-1] visited by
    [for (let i = a; i < n; i++)]. *)
Definition range (a n : Z) : list Z :=
  map (fun k => a + Z.of_nat k) (seq 0 (Z.to_nat (n - a))).

(** [for (let i = a; i < n; i++) s = body i s]. *)
Definition for_loop {S} (a n : Z) (body : Z -> S -> S) (s : S) : S :=
  fold_left (fun s i => body i s) (range a n) s.

(** [a.map((x, i) => f x i)]. *)
Fixpoint mapi_from {A B} (i : Z) (f : A -> Z -> B) (a : list A) : list B :=
  match a with
  | [] => []
  | x :: t => f x i :: mapi_from (i + 1) f t
  end.

Definition mapi {A B} (f : A -> Z -> B) (a : list A) : list B :=
  mapi_from 0 f a.

(** [Array(n).fill(x)] for [0 <= n]. *)
Definition Array_fill {A} (n : Z) (x : A) : list A := repeat x (Z.to_nat n).

(** [a[i]] kept as it is: [None] is [undefined]. *)
Definition lookup {A} (a : list A) (i : Z) : option A :=
  if i <? 0 then None else nth_error a (Z.to_nat i).

Definition Math_min (x y : Z) : Z := Z.min x y.

Definition Math_abs (x : number) : number := PrimFloat.abs x.

Definition Math_sqrt (x : number) : number := PrimFloat.sqrt x.

(** [Math.floor]: the largest integer not above [x]; zeros, infinities
    and [NaN] are returned as they are. *)
Definition Math_floor (x : number) : number :=
  match Prim2SF x with
  | S754_finite s m e =>
      if 0 <=? e then x
      else
        let d := 2 ^ (- e) in
        let q := Z.pos m / d in
        let c := if Z.pos m mod d =? 0 then q else q + 1 in
        if s then PrimFloat.opp (of_Z c) else of_Z q
  | _ => x
  end.

(** The integer a number denotes, if it denotes one. *)
Definition to_index (x : number) : option Z :=
  match Prim2SF x with
  | S754_zero _ => Some 0
  | S754_finite s m e =>
      if 0 <=? e then Some (cond_Zopp s (Z.pos m * 2 ^ e))
      else if Z.pos m mod 2 ^ (- e) =? 0
           then Some (cond_Zopp s (Z.pos m / 2 ^ (- e)))
           else None
  | _ => None
  end.

(** [a[x]] where the index is itself a number. *)
Definition get_num (a : list number) (x : number) : number :=
  match to_index x with
  | Some i => get a i
  | None => NaN
  end.

(** [a.sort(cmp)]: the sort is stable, and a comparator result that is
    [NaN] counts as [0].  For a consistent comparator this is the order
    ECMAScript prescribes.  The comparator [(a, b) => a - b] is consistent
    on numbers that are not [NaN] (infinities and signed zeros included).
    On an array holding [NaN] it is not, and the standard leaves the order
    to the implementation: there this definition gives the order of an
    insertion sort, which an engine need not produce, so a statement that
    depends on the sorted order assumes an array without [NaN]. *)
Fixpoint insert (cmp : number -> number -> number) (x : number)
    (acc : list number) : list number :=
  match acc with
  | [] => [x]
  | y :: t => if (cmp x y <? 0)%float then x :: y :: t
              else y :: insert cmp x t
  end.

Definition sort (cmp : number -> number -> number) (a : list number)
    : list number :=
  fold_left (fun acc x => insert cmp x acc) a [].

(** [Math.max(x, y)] and [Math.min(x, y)]: [NaN] if an argument is [NaN],
    and [+0] counts as larger than [-0]. *)
Definition Math_max_num (x y : number) : number :=
  if isNaN x || isNaN y then NaN
  else if lt x y then y
  else if lt y x then x
  else if PrimFloat.get_sign x then y else x.

Definition Math_min_num (x y : number) : number :=
  if isNaN x || isNaN y then NaN
  else if lt x y then x
  else if lt y x then y
  else if PrimFloat.get_sign x then x else y.

(** [Math.max(...a)] and [Math.min(...a)]; on no argument they are
    [-Infinity] and [Infinity]. *)
Definition Math_max_spread (a : list number) : number :=
  fold_left Math_max_num a neg_infinity.

Definition Math_min_spread (a : list number) : number :=
  fold_left Math_min_num a infinity.

(** [s.includes(sub)]. *)
Fixpoint includes (s sub : String.string) : bool :=
  if String.prefix sub s then true
  else match s with
       | String.EmptyString => false
       | String.String _ t => includes t sub
       end.

(** [String(n)] for an integer [n]. *)
Definition string_of_Z (n : Z) : String.string :=
  DecimalString.NilZero.string_of_int (Z.to_int n).

(** [x ?? null] on an array read: [undefined] and [null] both become
    [null]. *)
Definition or_null {A} (x : option (option A)) : option A :=
  match x with
  | Some v => v
  | None => None
  end.

End JS.

Import JS.

(** A bar of the historical series as the components read it. *)
Record Bar := mkBar {
  time : String.string;
  close : number;
  price : number
}.

(** [data[i].close]; every use below has [0 <= i < data.length]. *)
Definition close_at (data : list Bar) (i : Z) : number :=
  get (map close data) i.

(** A bar together with the [volume] field, which only the pattern
    detection of AIInsights.tsx reads. *)
Record Quote := mkQuote {
  quote_bar : Bar;
  volume : number
}.

(** The [predictions] object handed to AIInsights.tsx and
    PredictionChart.tsx; an absent field is [None], a missing or
    non-numeric [last_price] is [NaN]. *)
Record Predictions := mkPredictions {
  predictions : option (list number);
  dates : option (list String.string);
  last_price : number
}.

(** ** components/TechnicalIndicators.tsx *)

Module TechnicalIndicators.

Definition calculateSMA (prices : list number) (period : Z) : list number :=
  for_loop 0 (len prices) (fun i sma =>
    if i <? period - 1 then push sma NaN
    else
      let sum := reduce (fun a b => (a + b)%float)
                        (slice prices (i - period + 1) (i + 1)) 0%float in
      push sma (sum / of_Z period)%float) [].

Definition calculateEMA (prices : list number) (period : Z) : list number :=
  let multiplier := (2 / (of_Z period + 1))%float in
  let sum := for_loop 0 (Math_min period (len prices))
               (fun i sum => (sum + get prices i)%float) 0%float in
  let initialEMA := (sum / of_Z (Math_min period (len prices)))%float in
  for_loop 0 (len prices) (fun i ema =>
    if i <? period - 1 then push ema NaN
    else if i =? period - 1 then push ema initialEMA
    else
      let newEMA := ((get prices i * multiplier)
                     + (get ema (i - 1) * (1 - multiplier)))%float in
      push ema newEMA) [].

(** The value pushed by [calculateRSI] from an average gain and loss. *)
Definition rsi_value (avgGain avgLoss : number) : number :=
  if seq_num avgLoss 0 then 100%float
  else
    let rs := (avgGain / avgLoss)%float in
    (100 - (100 / (1 + rs)))%float.

(** The first loop of [calculateRSI]: the arrays [gains] and [losses]. *)
Definition price_changes (prices : list number)
    : list number * list number :=
  for_loop 1 (len prices) (fun i '(gains, losses) =>
    let change := (get prices i - get prices (i - 1))%float in
    (push gains (if gt change 0 then change else 0%float),
     push losses (if lt change 0 then Math_abs change else 0%float)))
    ([], []).

Definition calculateRSI (prices : list number) (period : Z) : list number :=
  let '(gains, losses) := price_changes prices in
  let avgGains := calculateEMA gains period in
  let avgLosses := calculateEMA losses period in
  for_loop 0 (len prices) (fun i rsi =>
    if i <? period then push rsi NaN
    else
      let avgGain := get avgGains (i - period) in
      let avgLoss := get avgLosses (i - period) in
      push rsi (rsi_value avgGain avgLoss)) [].

Definition calculateRSI_default (prices : list number) : list number :=
  calculateRSI prices 14.

Record MACD := mkMACD {
  macd : list number;
  signal : list number
}.

Definition calculateMACD (prices : list number) : MACD :=
  let ema12 := calculateEMA prices 12 in
  let ema26 := calculateEMA prices 26 in
  let macd := mapi (fun val i =>
                if isNaN val || isNaN (get ema26 i) then NaN
                else (val - get ema26 i)%float) ema12 in
  let validMacd := filter (fun val => negb (isNaN val)) macd in
  let signal := calculateEMA validMacd 9 in
  let paddedSignal := Array_fill (len macd - len signal) NaN ++ signal in
  {| macd := macd; signal := paddedSignal |}.

Record Bands := mkBands {
  upper : list number;
  lower : list number;
  middle : list number
}.

Section WithPow.
(** [Math.pow]. *)
Variable Math_pow : number -> number -> number.

Definition calculateBollingerBands (prices : list number) (period : Z)
    (stdDev : number) : Bands :=
  let sma := calculateSMA prices period in
  let '(upper, lower) :=
    for_loop 0 (len prices) (fun i '(upper, lower) =>
      if i <? period - 1 then (push upper NaN, push lower NaN)
      else
        let slice := slice prices (i - period + 1) (i + 1) in
        let mean := get sma i in
        let variance :=
          (reduce (fun sum price => sum + Math_pow (price - mean) 2)
                  slice 0 / of_Z period)%float in
        let standardDeviation := Math_sqrt variance in
        (push upper (mean + (standardDeviation * stdDev))%float,
         push lower (mean - (standardDeviation * stdDev))%float))
      ([], []) in
  {| upper := upper; lower := lower; middle := sma |}.

Definition calculateBollingerBands_default (prices : list number) : Bands :=
  calculateBollingerBands prices 20 2.

Record IndicatorData := mkIndicatorData {
  ind_time : String.string;
  ind_price : number;
  sma20 : option number;
  sma50 : option number;
  ema12 : option number;
  ema26 : option number;
  rsi : option number;
  ind_macd : option number;
  ind_signal : option number;
  bollinger_upper : option number;
  bollinger_lower : option number;
  bollinger_middle : option number
}.

(** [calculateIndicators]: [None] when it returns without setting the
    state, otherwise the array handed to [setIndicatorData].  A field
    read out of range would be [undefined], here [None]. *)
Definition calculateIndicators (data : list Bar)
    : option (list IndicatorData) :=
  let prices := map (fun d => or_num (close d) (price d)) data in
  if len prices =? 0 then None
  else
    let sma20 := calculateSMA prices 20 in
    let sma50 := calculateSMA prices 50 in
    let ema12 := calculateEMA prices 12 in
    let ema26 := calculateEMA prices 26 in
    let rsi := calculateRSI_default prices in
    let m := calculateMACD prices in
    let b := calculateBollingerBands_default prices in
    Some (mapi (fun item index =>
      {| ind_time := time item;
         ind_price := or_num (close item) (price item);
         sma20 := lookup sma20 index;
         sma50 := lookup sma50 index;
         ema12 := lookup ema12 index;
         ema26 := lookup ema26 index;
         rsi := lookup rsi index;
         ind_macd := lookup (macd m) index;
         ind_signal := lookup (signal m) index;
         bollinger_upper := lookup (upper b) index;
         bollinger_lower := lookup (lower b) index;
         bollinger_middle := lookup (middle b) index |}) data).
End WithPow.

End TechnicalIndicators.

(** ** components/AIInsights.tsx *)

Module AIInsights.

Definition calculateEMA (data : list number) (period : Z) : list number :=
  if len data <? period then data
  else
    let multiplier := (2 / (of_Z period + 1))%float in
    let ema := (reduce (fun sum val => sum + val) (slice data 0 period) 0
                / of_Z period)%float in
    let emaValues := [ema] in
    snd (for_loop period (len data) (fun i '(ema, emaValues) =>
           let ema := ((get data i * multiplier)
                       + (ema * (1 - multiplier)))%float in
           (ema, push emaValues ema)) (ema, emaValues)).

Definition calculateMomentum (data : list Bar) : number :=
  if len data <? 20 then 0%float
  else
    let currentPrice := close_at data (len data - 1) in
    let price20PeriodsAgo := close_at data (len data - 20) in
    (((currentPrice - price20PeriodsAgo) / price20PeriodsAgo) * 100)%float.

Section WithLog.
(** [Math.log]. *)
Variable Math_log : number -> number.

(** The array [returns] of [calculateVolatility]. *)
Definition log_returns (data : list Bar) : list number :=
  mapi (fun item index => Math_log (close item / close_at data index)%float)
       (slice data 1 (len data)).

(** The rest of [calculateVolatility] once [returns] and [mean] are known:
    the variance loop and the returned value. *)
Definition smoothed_volatility (returns : list number) (mean : number)
    : number :=
  let alpha := 0.1%float in
  let variance :=
    for_loop 0 (len returns) (fun i variance =>
      let diff := (get returns i - mean)%float in
      (alpha * (diff * diff) + (1 - alpha) * variance)%float) 0%float in
  (Math_sqrt variance * Math_sqrt 252 * 100)%float.

Definition calculateVolatility (data : list Bar) : number :=
  if len data <? 2 then 0%float
  else
    let returns := log_returns data in
    let emaReturns := calculateEMA returns 20 in
    let mean := get emaReturns (len emaReturns - 1) in
    smoothed_volatility returns mean.
End WithLog.

Definition calculateRSI (data : list Bar) (period : Z) : number :=
  if len data <? period + 1 then 50%float
  else
    let '(gains, losses) :=
      for_loop 1 (len data) (fun i '(gains, losses) =>
        let change := (close_at data i - close_at data (i - 1))%float in
        (push gains (if gt change 0 then change else 0%float),
         push losses (if lt change 0 then Math_abs change else 0%float)))
        ([], []) in
    let avgGain := calculateEMA gains period in
    let avgLoss := calculateEMA losses period in
    let currentAvgGain := get avgGain (len avgGain - 1) in
    let currentAvgLoss := get avgLoss (len avgLoss - 1) in
    if seq_num currentAvgLoss 0 then 100%float
    else
      let rs := (currentAvgGain / currentAvgLoss)%float in
      (100 - (100 / (1 + rs)))%float.

Definition calculateRSI_default (data : list Bar) : number :=
  calculateRSI data 14.

Definition detectPatterns (data : list Quote) : list String.string :=
  let patterns : list String.string := [] in
  if len data <? 10 then patterns
  else
    let recent := slice data (-10) (len data) in
    let prices := map (fun d => close (quote_bar d)) recent in
    let volumes := map (fun d => or_num (volume d) 0%float) recent in
    let sma5 := (reduce (fun sum price => sum + price)
                        (slice prices (-5) (len prices)) 0 / 5)%float in
    let sma10 := (reduce (fun sum price => sum + price) prices 0 / 10)%float in
    let currentPrice := get prices (len prices - 1) in
    let currentVolume := get volumes (len volumes - 1) in
    let avgVolume := (reduce (fun sum vol => sum + vol) volumes 0
                      / of_Z (len volumes))%float in
    let patterns :=
      if gt currentPrice sma5 && gt sma5 sma10 then push patterns "Uptrend"%string
      else if lt currentPrice sma5 && lt sma5 sma10
           then push patterns "Downtrend"%string
           else patterns in
    let patterns :=
      if gt currentVolume (avgVolume * 1.5)%float
      then push patterns "High Volume"%string else patterns in
    let maxPrice := Math_max_spread prices in
    let minPrice := Math_min_spread prices in
    let priceRange := (maxPrice - minPrice)%float in
    let patterns :=
      if gt currentPrice (maxPrice - (priceRange * 0.05))%float
      then push patterns "Near Resistance"%string else patterns in
    let patterns :=
      if lt currentPrice (minPrice + (priceRange * 0.05))%float
      then push patterns "Near Support"%string else patterns in
    let patterns :=
      if gt currentPrice (sma10 * 1.02)%float
         && gt currentVolume (avgVolume * 1.2)%float
      then push patterns "Potential Breakout"%string else patterns in
    patterns.

Inductive InsightType := bullish | bearish | neutral | warning.

(** The icon components an insight can carry. *)
Inductive Icon :=
  | AlertTriangle | TrendingUp | TrendingDown | Zap | Target | Brain.

Record Insight := mkInsight {
  insight_type : InsightType;
  title : String.string;
  description : String.string;
  confidence : Z;
  icon : Icon
}.

(** What [generateInsights] leaves in the component's state. *)
Record InsightState := mkInsightState {
  st_volatility : number;
  st_momentum : number;
  st_sentiment : InsightType;
  st_insights : list Insight
}.

Section GenerateInsights.
(** [Math.log] and [Number.prototype.toFixed]. *)
Variable Math_log : number -> number.
Variable toFixed : number -> Z -> String.string.

Local Infix "++" := String.append (right associativity, at level 60)
  : string_scope.
Local Open Scope string_scope.

(** The body of [patterns.forEach]: the state is the array of insights
    and the two counters. *)
Definition pattern_step (pattern : String.string)
    (s : list Insight * Z * Z) : list Insight * Z * Z :=
  let '(newInsights, bullishSignals, bearishSignals) := s in
  let '(type, confidence, bullishSignals, bearishSignals) :=
    if includes pattern "Uptrend" || includes pattern "Breakout"
    then (bullish, 75, bullishSignals + 1, bearishSignals)
    else if includes pattern "Downtrend"
    then (bearish, 75, bullishSignals, bearishSignals + 1)
    else if includes pattern "High Volume"
    then (warning, 80, bullishSignals, bearishSignals)
    else (neutral, 70, bullishSignals, bearishSignals) in
  (push newInsights
     {| insight_type := type;
        title := "Pattern: " ++ pattern;
        description := "Technical pattern detected with "
                       ++ string_of_Z confidence ++ "% confidence";
        confidence := confidence;
        icon := Target |},
   bullishSignals, bearishSignals).

Definition generateInsights (historicalData : list Quote)
    (currentPrice : number) (predictions_prop : option Predictions)
    : InsightState :=
  let bars := map quote_bar historicalData in
  let newInsights : list Insight := [] in
  let vol := calculateVolatility Math_log bars in
  let mom := calculateMomentum bars in
  let rsi := calculateRSI_default bars in
  let patterns := detectPatterns historicalData in
  let bullishSignals := 0 in
  let bearishSignals := 0 in
  let '(newInsights, bullishSignals, bearishSignals) :=
    if gt rsi 70 then
      (push newInsights
         {| insight_type := warning;
            title := "Overbought Condition";
            description := "RSI at " ++ toFixed rsi 1
                           ++ " indicates potential selling pressure";
            confidence := 75;
            icon := AlertTriangle |},
       bullishSignals, bearishSignals + 1)
    else if lt rsi 30 then
      (push newInsights
         {| insight_type := bullish;
            title := "Oversold Opportunity";
            description := "RSI at " ++ toFixed rsi 1
                           ++ " suggests potential buying opportunity";
            confidence := 80;
            icon := TrendingUp |},
       bullishSignals + 1, bearishSignals)
    else if gt rsi 50 then
      (push newInsights
         {| insight_type := bullish;
            title := "Positive Momentum";
            description := "RSI at " ++ toFixed rsi 1
                           ++ " shows positive momentum";
            confidence := 65;
            icon := TrendingUp |},
       bullishSignals + 1, bearishSignals)
    else (newInsights, bullishSignals, bearishSignals) in
  let '(newInsights, bullishSignals, bearishSignals) :=
    if gt mom 5 then
      (push newInsights
         {| insight_type := bullish;
            title := "Strong Upward Momentum";
            description := "ROC of " ++ toFixed mom 1
                           ++ "% indicates strong bullish trend";
            confidence := 85;
            icon := Zap |},
       bullishSignals + 1, bearishSignals)
    else if lt mom (-5) then
      (push newInsights
         {| insight_type := bearish;
            title := "Negative Momentum";
            description := "ROC of " ++ toFixed mom 1
                           ++ "% suggests bearish pressure";
            confidence := 80;
            icon := TrendingDown |},
       bullishSignals, bearishSignals + 1)
    else (newInsights, bullishSignals, bearishSignals) in
  let newInsights :=
    if gt vol 30 then
      push newInsights
        {| insight_type := warning;
           title := "High Volatility Alert";
           description := "Volatility at " ++ toFixed vol 1
                          ++ "% indicates increased risk";
           confidence := 90;
           icon := AlertTriangle |}
    else if lt vol 10 then
      push newInsights
        {| insight_type := neutral;
           title := "Low Volatility";
           description := "Volatility at " ++ toFixed vol 1
                          ++ "% suggests stable price action";
           confidence := 70;
           icon := Target |}
    else newInsights in
  let '(newInsights, bullishSignals, bearishSignals) :=
    fold_left (fun s pattern => pattern_step pattern s) patterns
              (newInsights, bullishSignals, bearishSignals) in
  let '(newInsights, bullishSignals, bearishSignals) :=
    match predictions_prop with
    | Some {| predictions := Some preds |} =>
        let futurePrice := get preds (len preds - 1) in
        let priceChange :=
          (((futurePrice - currentPrice) / currentPrice) * 100)%float in
        if gt priceChange 2 then
          (push newInsights
             {| insight_type := bullish;
                title := "AI Prediction: Upward Trend";
                description := "Model predicts " ++ toFixed priceChange 1
                               ++ "% increase over next period";
                confidence := 65;
                icon := Brain |},
           bullishSignals + 1, bearishSignals)
        else if lt priceChange (-2) then
          (push newInsights
             {| insight_type := bearish;
                title := "AI Prediction: Downward Trend";
                description := "Model predicts "
                               ++ toFixed (Math_abs priceChange) 1
                               ++ "% decrease over next period";
                confidence := 65;
                icon := Brain |},
           bullishSignals, bearishSignals + 1)
        else (newInsights, bullishSignals, bearishSignals)
    | _ => (newInsights, bullishSignals, bearishSignals)
    end in
  let sentiment :=
    if bearishSignals <? bullishSignals then bullish
    else if bullishSignals <? bearishSignals then bearish
    else neutral in
  {| st_volatility := vol;
     st_momentum := mom;
     st_sentiment := sentiment;
     st_insights := newInsights |}.
End GenerateInsights.

End AIInsights.

(** ** App.tsx *)

Module App.

(** An entry of the returned array is a number or [null] ([None]). *)
Definition calculateRSI (data : list Bar) (period : Z)
    : list (option number) :=
  let '(rsi, _, _) :=
    for_loop 1 (len data) (fun i '(rsi, gains, losses) =>
      let diff := (close_at data i - close_at data (i - 1))%float in
      if i <? period then
        let '(gains, losses) :=
          if gt diff 0 then ((gains + diff)%float, losses)
          else (gains, (losses - diff)%float) in
        (push rsi None, gains, losses)
      else if i =? period then
        let '(gains, losses) :=
          if gt diff 0 then ((gains + diff)%float, losses)
          else (gains, (losses - diff)%float) in
        let avgGain := (gains / of_Z period)%float in
        let avgLoss := or_num (losses / of_Z period)%float 1%float in
        let rs := (avgGain / avgLoss)%float in
        (push rsi (Some (100 - 100 / (1 + rs))%float), gains, losses)
      else
        let gain := if gt diff 0 then diff else 0%float in
        let loss := if lt diff 0 then (- diff)%float else 0%float in
        let gains := ((gains * (of_Z period - 1) + gain) / of_Z period)%float in
        let losses :=
          ((losses * (of_Z period - 1) + loss) / of_Z period)%float in
        let rs := (gains / or_num losses 1)%float in
        (push rsi (Some (100 - 100 / (1 + rs))%float), gains, losses))
      ([], 0%float, 0%float) in
  rsi.

Definition calculateRSI_default (data : list Bar) : list (option number) :=
  calculateRSI data 14.

(** The rows [fetchHistory] stores: each bar of the fetched data with the
    field [rsi: rsi[i] ?? null] added. *)
Definition rsiHistory (data : list Bar) : list (Bar * option number) :=
  let rsi := calculateRSI_default data in
  mapi (fun d i => (d, or_null (lookup rsi i))) data.

End App.

(** ** The RiskAnalysis component *)

Module RiskAnalysis.

Definition calculateReturns (data : list Bar) : list number :=
  for_loop 1 (len data) (fun i returns =>
    let dailyReturn :=
      ((close_at data i - close_at data (i - 1)) / close_at data (i - 1))%float
    in
    push returns dailyReturn) [].

Section WithPow.
(** [Math.pow]. *)
Variable Math_pow : number -> number -> number.

Definition calculateVolatility (returns : list number) : number :=
  if len returns <? 2 then 0%float
  else
    let mean := (reduce (fun sum ret => sum + ret) returns 0
                 / of_Z (len returns))%float in
    let variance :=
      (reduce (fun sum ret => sum + Math_pow (ret - mean) 2) returns 0
       / (of_Z (len returns) - 1))%float in
    (Math_sqrt (variance * 252) * 100)%float.
End WithPow.

Definition calculateVaR (returns : list number) (confidence : number)
    : number :=
  if len returns =? 0 then 0%float
  else
    let sortedReturns := sort (fun a b => (a - b)%float) returns in
    let index :=
      Math_floor ((1 - confidence) * of_Z (len sortedReturns))%float in
    let index := if lt index 0 then 0%float else index in
    let index :=
      if (of_Z (len sortedReturns) <=? index)%float
      then (of_Z (len sortedReturns) - 1)%float else index in
    (Math_abs (get_num sortedReturns index) * 100)%float.

Definition calculateMaxDrawdown (data : list Bar) : number :=
  if len data <? 2 then 0%float
  else
    let maxDrawdown := 0%float in
    let peak := close_at data 0 in
    let '(maxDrawdown, _) :=
      for_loop 1 (len data) (fun i '(maxDrawdown, peak) =>
        let peak :=
          if gt (close_at data i) peak then close_at data i else peak in
        let drawdown := ((peak - close_at data i) / peak)%float in
        let maxDrawdown :=
          if gt drawdown maxDrawdown then drawdown else maxDrawdown in
        (maxDrawdown, peak)) (maxDrawdown, peak) in
    (maxDrawdown * 100)%float.

Section WithPowMetrics.
(** [Math.pow]. *)
Variable Math_pow : number -> number -> number.

Definition calculateSharpeRatio (returns : list number)
    (riskFreeRate : number) : number :=
  if len returns =? 0 then 0%float
  else
    let meanReturn := (reduce (fun sum ret => sum + ret) returns 0
                       / of_Z (len returns))%float in
    let annualizedReturn := (meanReturn * 252)%float in
    let volatility := (calculateVolatility Math_pow returns / 100)%float in
    if seq_num volatility 0 then 0%float
    else ((annualizedReturn - riskFreeRate) / volatility)%float.

Definition calculateBeta (returns : list number) : number :=
  if len returns =? 0 then 1.0%float
  else
    let stockMean := (reduce (fun sum ret => sum + ret) returns 0
                      / of_Z (len returns))%float in
    let stockVariance :=
      (reduce (fun sum ret => sum + Math_pow (ret - stockMean) 2) returns 0
       / (of_Z (len returns) - 1))%float in
    let volatility := calculateVolatility Math_pow returns in
    if lt volatility 15 then 0.8%float
    else if lt volatility 25 then 1.0%float
    else 1.3%float.

Inductive RiskLevel := low | medium | high.

Record RiskMetrics := mkRiskMetrics {
  rm_volatility : number;
  var95 : number;
  var99 : number;
  sharpeRatio : number;
  maxDrawdown : number;
  beta : number;
  riskLevel : RiskLevel
}.

(** [calculateRiskMetrics]: [None] when it returns without setting the
    state, otherwise the object handed to [setRiskMetrics]. *)
Definition calculateRiskMetrics (historicalData : list Bar)
    : option RiskMetrics :=
  let returns := calculateReturns historicalData in
  if len returns =? 0 then None
  else
    let volatility := calculateVolatility Math_pow returns in
    let var95 := calculateVaR returns 0.95 in
    let var99 := calculateVaR returns 0.99 in
    let sharpeRatio := calculateSharpeRatio returns 0.02 in
    let maxDrawdown := calculateMaxDrawdown historicalData in
    let beta := calculateBeta returns in
    let riskLevel :=
      if lt volatility 15 then low
      else if gt volatility 25 then high
      else medium in
    Some {| rm_volatility := volatility;
            var95 := var95;
            var99 := var99;
            sharpeRatio := sharpeRatio;
            maxDrawdown := maxDrawdown;
            beta := beta;
            riskLevel := riskLevel |}.
End WithPowMetrics.

Inductive RiskTolerance := conservative | moderate | aggressive.

Record PositionSizing := mkPositionSizing {
  maxShares : number;
  recommendedPosition : number;
  riskAmount : number;
  stopLossPrice : number
}.

Definition calculatePositionSizing (riskMetrics : option RiskMetrics)
    (riskTolerance : RiskTolerance)
    (portfolioValue currentPrice positionSize : number)
    : option PositionSizing :=
  match riskMetrics with
  | None => None
  | Some riskMetrics =>
      let riskPercentage :=
        match riskTolerance with
        | conservative => 0.01%float
        | moderate => 0.02%float
        | aggressive => 0.05%float
        end in
      let portfolioRisk := (portfolioValue * riskPercentage)%float in
      let stopLossPercentage := (var95 riskMetrics / 100)%float in
      let maxShares :=
        Math_floor (portfolioRisk / (currentPrice * stopLossPercentage))%float
      in
      let recommendedPosition :=
        Math_min_num (maxShares * currentPrice)%float positionSize in
      Some {| maxShares := maxShares;
              recommendedPosition := recommendedPosition;
              riskAmount := (recommendedPosition * stopLossPercentage)%float;
              stopLossPrice :=
                (currentPrice * (1 - stopLossPercentage))%float |}
  end.

End RiskAnalysis.

(** ** components/PredictionChart.tsx *)

Module PredictionChart.

(** A row of the chart: a bar of the history as it is, or a prediction
    [{time, price: null, predicted, isPrediction: true}]. *)
Inductive ChartRow :=
  | Historical (bar : Bar)
  | Predicted (time : option String.string) (predicted : number).

(** [prepareChartData]: the array handed to [setChartData]. *)
Definition prepareChartData (historicalData : list Bar)
    (predictions_prop : option Predictions) : list ChartRow :=
  let data := map Historical (slice historicalData (-30) (len historicalData)) in
  match predictions_prop with
  | Some {| predictions := Some preds; dates := Some ds |} =>
      let predictionData :=
        mapi (fun price index => Predicted (lookup ds index) price) preds in
      data ++ predictionData
  | _ => data
  end.

(** [calculateAccuracy]: [None] is [null]. *)
Definition calculateAccuracy (historicalData : list Bar)
    (predictions_prop : option Predictions) : option number :=
  match predictions_prop with
  | None => None
  | Some p =>
      if negb (truthy (last_price p)) then None
      else
        let currentPrice :=
          match lookup historicalData (len historicalData - 1) with
          | Some b => or_num (close b) (price b)
          | None => NaN
          end in
        if negb (truthy currentPrice) then None
        else
          let accuracy :=
            (100 - Math_abs ((currentPrice - last_price p) / last_price p)
                   * 100)%float in
          Some (Math_max_num 0 accuracy)
  end.

End PredictionChart.

(** ** The formulas the routines are compared with *)

Module Formulas.

(** The sum of a list, added up from the left starting at [0]. *)
Definition total (l : list number) : number :=
  fold_left (fun a b => (a + b)%float) l 0%float.

Definition arithmetic_mean (l : list number) : number :=
  (total l / of_Z (len l))%float.

(** The [p] prices ending at index [i]. *)
Definition window (prices : list number) (p i : Z) : list number :=
  firstn (Z.to_nat p) (skipn (Z.to_nat (i - p + 1)) prices).

(** The sum of the squared deviations from [mean]. *)
Definition squared_deviations (Math_pow : number -> number -> number)
    (l : list number) (mean : number) : number :=
  fold_left (fun sum x => (sum + Math_pow (x - mean) 2)%float) l 0%float.

(** Standard deviation about [mean] with denominator [n]. *)
Definition standard_deviation (Math_pow : number -> number -> number)
    (l : list number) (mean : number) (n : number) : number :=
  Math_sqrt (squared_deviations Math_pow l mean / n)%float.

End Formulas.

Import Formulas.

(** ** The statements under examination and the inputs used with them *)

Import TechnicalIndicators RiskAnalysis.

Definition defined (x : number) : bool := negb (isNaN x).

(** The reading of the MACD description in which the padding of the signal
    sits exactly where the MACD line is undefined: the macd array is a run
    of NaN followed by the MACD line proper, free of NaN, and the signal is
    the same run of NaN followed by the 9-period EMA of that line. *)
Definition macd_described (prices : list number) : Prop :=
  let m := calculateMACD prices in
  let e12 := calculateEMA prices 12 in
  let e26 := calculateEMA prices 26 in
  (forall i, 0 <= i < len prices ->
     lookup (macd m) i
     = Some (if isNaN (get e12 i) || isNaN (get e26 i) then NaN
             else (get e12 i - get e26 i)%float))
  /\ len (signal m) = len (macd m)
  /\ exists (k : nat) (line : list number),
       macd m = repeat NaN k ++ line
       /\ Forall (fun x => defined x = true) line
       /\ signal m = repeat NaN k ++ calculateEMA line 9.

(** Thirty-four prices of 1 and a last bar whose price is missing. *)
Definition prices_missing_last : list number :=
  repeat 1%float 34 ++ [NaN].

(** The textbook RSI at index [i >= p]: [100 - 100/(1 + RS)], and [100]
    when the average loss is [0], with [RS] the quotient of the [p]-period
    exponential averages of the gains and of the losses over the price
    changes up to the one that ends at index [i] (entry [i-1] of the
    arrays of changes). *)
Definition textbook_rsi (prices : list number) (p i : Z) : number :=
  let '(gains, losses) := price_changes prices in
  rsi_value (get (calculateEMA gains p) (i - 1))
            (get (calculateEMA losses p) (i - 1)).

(** C2 as stated. *)
Definition rsi_described (prices : list number) (p : Z) : Prop :=
  len (calculateRSI prices p) = len prices
  /\ (forall i, 0 <= i < len prices -> i < p ->
        lookup (calculateRSI prices p) i = Some NaN)
  /\ (forall i, p <= i < len prices ->
        lookup (calculateRSI prices p) i = Some (textbook_rsi prices p i)).

(** Sixteen rising prices. *)
Definition rising_prices : list number := map of_Z (range 1 17).

(** The three routines as C1 relates them, at the default period: at every
    index where App.tsx and TechnicalIndicators.tsx both yield a number the
    two numbers are equal, and the value of AIInsights.tsx is the last of
    them. *)
Definition both_yield (data : list Bar) (i : Z) (x y : number) : Prop :=
  lookup (App.calculateRSI_default data) i = Some (Some x)
  /\ defined x = true
  /\ lookup (calculateRSI_default (map close data)) i = Some y
  /\ defined y = true.

Definition rsi_routines_agree (data : list Bar) : Prop :=
  (forall i x y, both_yield data i x y -> x = y)
  /\ (forall i x y, both_yield data i x y ->
        (forall j x' y', both_yield data j x' y' -> j <= i) ->
        AIInsights.calculateRSI_default data = y).

(** Thirty bars. *)
Definition sample_bars : list Bar :=
  map (fun k => mkBar String.EmptyString (of_Z (100 + (k * k) mod 7)) 0%float)
      (range 0 30).

(** The sample variance: squared deviations from the mean over [n - 1]. *)
Definition sample_variance (Math_pow : number -> number -> number)
    (l : list number) : number :=
  (squared_deviations Math_pow l (arithmetic_mean l)
   / (of_Z (len l) - 1))%float.

Definition annualized_volatility_percent
    (Math_pow : number -> number -> number) (l : list number) : number :=
  (Math_sqrt (sample_variance Math_pow l * 252) * 100)%float.

(** The larger of the running value and a new one, as the loops update it
    ([if (y > m) m = y]). *)
Definition larger (m y : number) : number := if gt y m then y else m.

(** The maximum of a list, scanned from the left. *)
Definition list_max (l : list number) : number :=
  match l with
  | [] => NaN
  | x :: t => fold_left larger t x
  end.

(** The running maximum of the closes up to and including index [i]. *)
Definition running_peak (closes : list number) (i : Z) : number :=
  list_max (firstn (Z.to_nat (i + 1)) closes).

Definition drawdown_at (closes : list number) (i : Z) : number :=
  ((running_peak closes i - get closes i) / running_peak closes i)%float.

(** The textbook maximum drawdown in percent. *)
Definition max_drawdown_percent (closes : list number) : number :=
  (list_max (map (drawdown_at closes) (range 0 (len closes))) * 100)%float.

(** The comparator [(a, b) => a - b] of the ascending sort. *)
Definition ascending (a b : number) : number := (a - b)%float.

(** [b] may follow [a] in ascending order: the comparator does not put
    [b] before [a]. *)
Definition may_follow (a b : number) : Prop := lt (ascending b a) 0 = false.

(** No element of the array is [NaN]: the arrays on which the comparator
    [(a, b) => a - b] is consistent and the sorted order is determined. *)
Definition no_NaN (a : list number) : bool :=
  forallb (fun x => negb (isNaN x)) a.

(** The index [floor((1 - c) * n)], raised to 0 and lowered to [n - 1]
    as the code does. *)
Definition var_index (n c : number) : number :=
  let index := Math_floor ((1 - c) * n)%float in
  let index := if lt index 0 then 0%float else index in
  if (n <=? index)%float then (n - 1)%float else index.

(** C7 as stated: 100 times the negated element at index
    [floor((1 - c) * n)] of the ascending-sorted returns. *)
Definition negated_quantile_percent (returns : list number) (c : number)
    : number :=
  let sorted := sort ascending returns in
  let index := Math_floor ((1 - c) * of_Z (len returns))%float in
  (- get_num sorted index * 100)%float.

Definition var_described (returns : list number) (c : number) : Prop :=
  (returns = [] -> calculateVaR returns c = 0%float)
  /\ (returns <> [] -> lt 0 c = true -> lt c 1 = true ->
      calculateVaR returns c = negated_quantile_percent returns c).

(** ** Auxiliary definitions of the proofs *)

(** A loop that pushes one element per iteration onto an initially empty
    array, the element possibly depending on the array so far. *)
Definition push_loop {A} (g : Z -> list A -> A) (n : Z) : list A :=
  for_loop 0 n (fun i acc => push acc (g i acc)) [].

(** The element each loop pushes at index [i]. *)
Definition sma_entry (prices : list number) (period : Z) (i : Z) : number :=
  if i <? period - 1 then NaN
  else (reduce (fun a b => (a + b)%float)
               (slice prices (i - period + 1) (i + 1)) 0 / of_Z period)%float.

Definition initial_sum (prices : list number) (period : Z) : number :=
  for_loop 0 (Math_min period (len prices))
    (fun i sum => (sum + get prices i)%float) 0%float.

Definition ema_entry (prices : list number) (period : Z) (i : Z)
    (ema : list number) : number :=
  if i <? period - 1 then NaN
  else if i =? period - 1
       then (initial_sum prices period
             / of_Z (Math_min period (len prices)))%float
       else ((get prices i * (2 / (of_Z period + 1)))
             + (get ema (i - 1) * (1 - 2 / (of_Z period + 1))))%float.

Definition rsi_entry (avgGains avgLosses : list number) (period : Z) (i : Z)
    : number :=
  if i <? period then NaN
  else rsi_value (get avgGains (i - period)) (get avgLosses (i - period)).

(** The gain and the loss of the price change that ends at index [i+1]. *)
Definition gain_entry (prices : list number) (i : Z) : number :=
  let change := (get prices (i + 1) - get prices (i + 1 - 1))%float in
  if gt change 0 then change else 0%float.

Definition loss_entry (prices : list number) (i : Z) : number :=
  let change := (get prices (i + 1) - get prices (i + 1 - 1))%float in
  if lt change 0 then Math_abs change else 0%float.

(** A value that compares below zero. *)
Definition sf_negative (x : spec_float) : bool := SFltb x (S754_zero false).

Definition band_entry (Math_pow : number -> number -> number)
    (prices : list number) (period : Z) (stdDev : number)
    (sign : number -> number -> number) (i : Z) : number :=
  if i <? period - 1 then NaN
  else
    let mean := get (TechnicalIndicators.calculateSMA prices period) i in
    let variance :=
      (reduce (fun sum price => sum + Math_pow (price - mean) 2)
              (slice prices (i - period + 1) (i + 1)) 0
       / of_Z period)%float in
    sign mean (Math_sqrt variance * stdDev)%float.

(** A value that is not [NaN] and has no minus sign, or is a zero. *)
Definition sf_nonneg (x : spec_float) : bool :=
  match x with
  | S754_zero _ => true
  | S754_infinity s => negb s
  | S754_finite s _ _ => negb s
  | S754_nan => false
  end.

(** A positive finite number. *)
Definition positive_finite (x : number) : Prop :=
  lt 0 x = true /\ lt x infinity = true.

(** The entries of the array of App.tsx: [null] while [i < period] for the
    bar index [i = j + 1] that produced entry [j], a number after. *)
Definition app_rsi_shape (period : Z) (rsi : list (option number)) : Prop :=
  forall j, 0 <= j < len rsi ->
    (j + 1 < period -> lookup rsi j = Some None)
    /\ (period <= j + 1 -> exists x, lookup rsi j = Some (Some x)).

(** The names [detectPatterns] can push. *)
Definition pattern_names : list String.string :=
  ["Uptrend"; "Downtrend"; "High Volume"; "Near Resistance";
   "Near Support"; "Potential Breakout"]%string.

(** The range in which every confidence of an insight lies. *)
Definition confidence_in_range (ins : AIInsights.Insight) : Prop :=
  65 <= AIInsights.confidence ins <= 90.

(** The titles of the two insights about volatility. *)
Definition about_volatility (ins : AIInsights.Insight) : Prop :=
  AIInsights.title ins = "High Volatility Alert"%string
  \/ AIInsights.title ins = "Low Volatility"%string.

(** A finite number: not [NaN] and not an infinity. *)
Definition finite (x : number) : Prop := lt (Math_abs x) infinity = true.

(** No price change is negative: no price compares below the one before. *)
Definition no_losses (prices : list number) : Prop :=
  forall i, 1 <= i < len prices ->
    lt (get prices i - get prices (i - 1)) 0 = false.

(** ** Reasoning about loops *)

Module Loops.

Lemma range_empty (a n : Z) : n <= a -> range a n = [].
Proof.
  intros H. unfold range.
  replace (Z.to_nat (n - a)) with 0%nat by lia. reflexivity.
Qed.

Lemma range_snoc (a n : Z) : a <= n -> range a (n + 1) = range a n ++ [n].
Proof.
  intros H. unfold range.
  replace (Z.to_nat (n + 1 - a)) with (S (Z.to_nat (n - a))) by lia.
  rewrite seq_S, map_app. simpl. do 2 f_equal. lia.
Qed.

Section ForLoop.
Context {S : Type}.
Variable body : Z -> S -> S.

Lemma for_loop_empty (a n : Z) (s : S) :
  n <= a -> for_loop a n body s = s.
Proof. intros H. unfold for_loop. now rewrite range_empty. Qed.

Lemma for_loop_snoc (a n : Z) (s : S) :
  a <= n -> for_loop a (n + 1) body s = body n (for_loop a n body s).
Proof.
  intros H. unfold for_loop. rewrite range_snoc by assumption.
  now rewrite fold_left_app.
Qed.

(** The invariant rule: what holds of the initial state and is kept by
    every iteration holds when the loop leaves. *)
Lemma for_loop_inv (P : Z -> S -> Prop) (a n : Z) (s : S) :
  a <= n ->
  P a s ->
  (forall i t, a <= i < n -> P i t -> P (i + 1) (body i t)) ->
  P n (for_loop a n body s).
Proof.
  intros Han Hinit Hstep.
  assert (G : forall k : nat, a + Z.of_nat k <= n ->
                P (a + Z.of_nat k) (for_loop a (a + Z.of_nat k) body s)).
  { induction k as [|k IH]; intros Hk.
    - rewrite Z.add_0_r, for_loop_empty by lia. assumption.
    - replace (a + Z.of_nat (Datatypes.S k)) with (a + Z.of_nat k + 1) by lia.
      rewrite for_loop_snoc by lia. apply Hstep; [lia | apply IH; lia]. }
  specialize (G (Z.to_nat (n - a))).
  replace (a + Z.of_nat (Z.to_nat (n - a))) with n in G by lia.
  apply G. lia.
Qed.

Lemma for_loop_ext (body' : Z -> S -> S) (a n : Z) (s : S) :
  (forall i t, a <= i < n -> body i t = body' i t) ->
  for_loop a n body s = for_loop a n body' s.
Proof.
  intros E. unfold for_loop.
  assert (R : forall i, In i (range a n) -> a <= i < n).
  { intros i Hi. unfold range in Hi. apply in_map_iff in Hi.
    destruct Hi as (k & <- & Hk). apply in_seq in Hk. lia. }
  revert s R. induction (range a n) as [|i r IH]; intros s R; simpl.
  - reflexivity.
  - rewrite E by (apply R; now left). apply IH.
    intros j Hj. apply R. now right.
Qed.
End ForLoop.

Section PushLoop.
Context {A : Type}.
Variable g : Z -> list A -> A.

Lemma push_loop_succ (n : Z) :
  0 <= n -> push_loop g (n + 1) = push_loop g n ++ [g n (push_loop g n)].
Proof. intros H. unfold push_loop. now rewrite for_loop_snoc. Qed.

Lemma len_push_loop (n : Z) : 0 <= n -> len (push_loop g n) = n.
Proof.
  intros H. unfold push_loop.
  apply for_loop_inv with (P := fun i acc => len acc = i); try assumption.
  - reflexivity.
  - intros i t _ Ht. unfold push, len in *. rewrite length_app. simpl. lia.
Qed.

Lemma length_push_loop (n : Z) : length (push_loop g n) = Z.to_nat n.
Proof.
  destruct (Z.le_gt_cases 0 n) as [H|H].
  - pose proof (len_push_loop H) as L. unfold len in L. lia.
  - unfold push_loop. rewrite for_loop_empty by lia.
    simpl. lia.
Qed.

Lemma push_loop_prefix (i n : Z) :
  0 <= i <= n -> firstn (Z.to_nat i) (push_loop g n) = push_loop g i.
Proof.
  intros [Hi Hin].
  replace n with (i + Z.of_nat (Z.to_nat (n - i))) by lia.
  induction (Z.to_nat (n - i)) as [|k IH].
  - rewrite Z.add_0_r. rewrite <- (length_push_loop i) at 1.
    apply firstn_all.
  - replace (i + Z.of_nat (S k)) with (i + Z.of_nat k + 1) by lia.
    rewrite push_loop_succ by lia.
    rewrite firstn_app, IH, length_push_loop.
    replace (Z.to_nat i - Z.to_nat (i + Z.of_nat k))%nat with 0%nat by lia.
    simpl. apply app_nil_r.
Qed.

Lemma nth_error_push_loop (i n : Z) :
  0 <= i < n ->
  nth_error (push_loop g n) (Z.to_nat i) = Some (g i (push_loop g i)).
Proof.
  intros H.
  rewrite <- (firstn_skipn (Z.to_nat (i + 1)) (push_loop g n)).
  rewrite push_loop_prefix by lia. rewrite push_loop_succ by lia.
  rewrite <- app_assoc. rewrite nth_error_app2; rewrite length_push_loop;
    [|lia].
  now rewrite Nat.sub_diag.
Qed.
End PushLoop.

Lemma get_push_loop (g : Z -> list number -> number) (i n : Z) :
  0 <= i < n -> get (push_loop g n) i = g i (push_loop g i).
Proof.
  intros H. unfold get.
  destruct (Z.ltb_spec i 0) as [?|_]; [lia|].
  apply nth_error_nth. now apply nth_error_push_loop.
Qed.

Lemma get_outside (a : list number) (i : Z) :
  i < 0 \/ len a <= i -> get a i = NaN.
Proof.
  intros H. unfold get, len in *.
  destruct (Z.ltb_spec i 0) as [?|?]; [reflexivity|].
  apply nth_overflow. lia.
Qed.

Lemma range_shift (a n : Z) :
  range (a + 1) (n + 1) = map (fun i => i + 1) (range a n).
Proof.
  unfold range. replace (n + 1 - (a + 1)) with (n - a) by lia.
  rewrite map_map. apply map_ext. intros k. lia.
Qed.

(** [for (i = a+1; i < n+1; i++) body(i)] visits what
    [for (i = a; i < n; i++) body(i+1)] visits. *)
Lemma for_loop_shift {S} (body : Z -> S -> S) (a n : Z) (s : S) :
  for_loop (a + 1) (n + 1) body s
  = for_loop a n (fun i => body (i + 1)) s.
Proof.
  unfold for_loop. rewrite range_shift.
  generalize (range a n). intros r. revert s.
  induction r as [|i r IH]; intros s; simpl; [reflexivity|apply IH].
Qed.

Lemma for_loop_from_1 {S} (body : Z -> S -> S) (n : Z) (s : S) :
  for_loop 1 n body s = for_loop 0 (n - 1) (fun i => body (i + 1)) s.
Proof.
  rewrite <- for_loop_shift. f_equal. lia.
Qed.

(** Two arrays filled side by side by one loop. *)
Lemma for_loop_push2 {A B} (f : Z -> list A -> A) (g : Z -> list B -> B)
    (n : Z) :
  for_loop 0 n (fun i '(u, l) => (push u (f i u), push l (g i l))) ([], [])
  = (push_loop f n, push_loop g n).
Proof.
  destruct (Z.le_gt_cases 0 n) as [H|H].
  - apply for_loop_inv
      with (P := fun i s => s = (push_loop f i, push_loop g i)).
    + assumption.
    + reflexivity.
    + intros i t Hi ->. rewrite !push_loop_succ by lia. reflexivity.
  - unfold push_loop. now rewrite !for_loop_empty by lia.
Qed.

Lemma firstn_succ_nth_error {A} (a : list A) (k : nat) (x : A) :
  nth_error a k = Some x -> firstn (S k) a = firstn k a ++ [x].
Proof.
  revert k. induction a as [|y a IH]; intros [|k] E; simpl in *;
    try discriminate.
  - now injection E as ->.
  - f_equal. now apply IH.
Qed.

End Loops.

Import Loops.

(** ** Arrays built by the indicator loops *)

Lemma len_nonneg {A} (a : list A) : 0 <= len a.
Proof. unfold len. lia. Qed.

Lemma len_app {A} (a b : list A) : len (a ++ b) = len a + len b.
Proof. unfold len. rewrite length_app. lia. Qed.

Lemma lookup_get (a : list number) (i : Z) (x : number) :
  lookup a i = Some x -> get a i = x.
Proof.
  unfold lookup, get. destruct (i <? 0); [discriminate|].
  intros H. now apply nth_error_nth.
Qed.

Lemma lookup_push_loop {A} (g : Z -> list A -> A) (i n : Z) :
  0 <= i < n -> lookup (push_loop g n) i = Some (g i (push_loop g i)).
Proof.
  intros H. unfold lookup. destruct (Z.ltb_spec i 0) as [?|_]; [lia|].
  now apply nth_error_push_loop.
Qed.

Lemma lookup_in_range {A} (a : list A) (i : Z) :
  0 <= i < len a -> lookup a i <> None.
Proof.
  intros H. unfold lookup, len in *.
  destruct (Z.ltb_spec i 0) as [?|_]; [lia|].
  apply nth_error_Some. lia.
Qed.

Lemma length_mapi_from {A B} (f : A -> Z -> B) (a : list A) (i : Z) :
  length (mapi_from i f a) = length a.
Proof. revert i. induction a as [|x a IH]; intros i; simpl; congruence. Qed.

Lemma len_mapi {A B} (f : A -> Z -> B) (a : list A) : len (mapi f a) = len a.
Proof. unfold len, mapi. now rewrite length_mapi_from. Qed.

Lemma nth_error_mapi_from {A B} (f : A -> Z -> B) (a : list A) (i : Z)
    (k : nat) :
  nth_error (mapi_from i f a) k
  = option_map (fun x => f x (i + Z.of_nat k)) (nth_error a k).
Proof.
  revert i k. induction a as [|x a IH]; intros i [|k]; simpl; try reflexivity.
  - now rewrite Z.add_0_r.
  - rewrite IH. destruct (nth_error a k); simpl; [|reflexivity].
    do 2 f_equal. lia.
Qed.

Lemma lookup_mapi {A B} (f : A -> Z -> B) (a : list A) (i : Z) :
  lookup (mapi f a) i = option_map (fun x => f x i) (lookup a i).
Proof.
  unfold lookup, mapi. destruct (Z.ltb_spec i 0) as [?|Hi]; [reflexivity|].
  rewrite nth_error_mapi_from. simpl.
  now replace (Z.of_nat (Z.to_nat i)) with i by lia.
Qed.

Lemma lookup_some_get (a : list number) (i : Z) :
  0 <= i < len a -> lookup a i = Some (get a i).
Proof.
  intros H. unfold lookup, get, len in *.
  destruct (Z.ltb_spec i 0) as [?|_]; [lia|].
  destruct (nth_error a (Z.to_nat i)) eqn:E.
  - f_equal. symmetry. now apply nth_error_nth.
  - apply nth_error_None in E. lia.
Qed.

Lemma lookup_some_range {A} (a : list A) (i : Z) (x : A) :
  lookup a i = Some x -> 0 <= i < len a.
Proof.
  unfold lookup, len. destruct (Z.ltb_spec i 0) as [?|?]; [discriminate|].
  intros E. assert (nth_error a (Z.to_nat i) <> None) as N by congruence.
  apply nth_error_Some in N. lia.
Qed.

Module TIFacts.
Import TechnicalIndicators.

Lemma calculateSMA_push (prices : list number) (period : Z) :
  calculateSMA prices period
  = push_loop (fun i _ => sma_entry prices period i) (len prices).
Proof.
  unfold calculateSMA, push_loop. apply for_loop_ext.
  intros i t _. unfold sma_entry. now destruct (i <? period - 1).
Qed.

Lemma calculateEMA_push (prices : list number) (period : Z) :
  calculateEMA prices period = push_loop (ema_entry prices period) (len prices).
Proof.
  unfold calculateEMA, push_loop. apply for_loop_ext.
  intros i t _. unfold ema_entry, initial_sum.
  destruct (i <? period - 1); [reflexivity|].
  now destruct (i =? period - 1).
Qed.

Lemma calculateRSI_push (prices : list number) (period : Z) :
  calculateRSI prices period
  = push_loop (fun i _ =>
      rsi_entry (calculateEMA (fst (price_changes prices)) period)
                (calculateEMA (snd (price_changes prices)) period) period i)
      (len prices).
Proof.
  unfold calculateRSI. destruct (price_changes prices) as [gains losses].
  unfold push_loop. apply for_loop_ext.
  intros i t _. unfold rsi_entry. now destruct (i <? period).
Qed.

Lemma len_calculateSMA (prices : list number) (period : Z) :
  len (calculateSMA prices period) = len prices.
Proof. rewrite calculateSMA_push. apply len_push_loop, len_nonneg. Qed.

Lemma len_calculateEMA (prices : list number) (period : Z) :
  len (calculateEMA prices period) = len prices.
Proof. rewrite calculateEMA_push. apply len_push_loop, len_nonneg. Qed.

Lemma len_calculateRSI (prices : list number) (period : Z) :
  len (calculateRSI prices period) = len prices.
Proof. rewrite calculateRSI_push. apply len_push_loop, len_nonneg. Qed.

Lemma len_filter_le {A} (f : A -> bool) (a : list A) :
  len (filter f a) <= len a.
Proof.
  unfold len. apply inj_le.
  induction a as [|x a IH]; simpl; [lia|]. destruct (f x); simpl; lia.
Qed.

Lemma len_Array_fill {A} (n : Z) (x : A) :
  len (Array_fill n x) = Z.max n 0.
Proof. unfold len, Array_fill. rewrite repeat_length. lia. Qed.

Lemma len_macd (prices : list number) :
  len (macd (calculateMACD prices)) = len prices.
Proof. simpl. now rewrite len_mapi, len_calculateEMA. Qed.

Lemma len_signal (prices : list number) :
  len (signal (calculateMACD prices)) = len prices.
Proof.
  unfold calculateMACD. cbn [signal].
  set (m := mapi _ _).
  assert (Hm : len m = len prices).
  { unfold m. now rewrite len_mapi, len_calculateEMA. }
  rewrite len_app, len_Array_fill, len_calculateEMA.
  pose proof (len_filter_le (fun val => negb (isNaN val)) m). lia.
Qed.

Lemma total_firstn_succ (a : list number) (i : Z) :
  0 <= i < len a ->
  total (firstn (Z.to_nat (i + 1)) a)
  = (total (firstn (Z.to_nat i) a) + get a i)%float.
Proof.
  intros H. pose proof (lookup_some_get a H) as E.
  unfold lookup in E. destruct (Z.ltb_spec i 0) as [?|_]; [lia|].
  replace (Z.to_nat (i + 1)) with (S (Z.to_nat i)) by lia.
  rewrite (firstn_succ_nth_error _ _ E). unfold total.
  now rewrite fold_left_app.
Qed.

Lemma initial_sum_total (prices : list number) (period : Z) :
  0 <= period <= len prices ->
  initial_sum prices period = total (firstn (Z.to_nat period) prices).
Proof.
  intros H. unfold initial_sum, Math_min.
  rewrite Z.min_l by lia.
  apply for_loop_inv
    with (P := fun i s => s = total (firstn (Z.to_nat i) prices)).
  - lia.
  - reflexivity.
  - intros i t Hi ->. symmetry. apply total_firstn_succ. lia.
Qed.

Lemma slice_window (prices : list number) (p i : Z) :
  0 <= p -> 0 <= i -> p - 1 <= i < len prices ->
  slice prices (i - p + 1) (i + 1) = window prices p i
  /\ len (window prices p i) = p.
Proof.
  intros Hp H0 Hi. unfold slice, window, rel_index.
  destruct (Z.ltb_spec (i - p + 1) 0) as [?|_]; [lia|].
  destruct (Z.ltb_spec (i + 1) 0) as [?|_]; [lia|].
  rewrite !Z.min_l by lia.
  replace (i + 1 - (i - p + 1)) with p by lia.
  split; [reflexivity|].
  unfold len in *. rewrite length_firstn, length_skipn. lia.
Qed.

Section Bollinger.
Variable Math_pow : number -> number -> number.
Variables (prices : list number) (period : Z) (stdDev : number).

Lemma calculateBollingerBands_push :
  calculateBollingerBands Math_pow prices period stdDev
  = {| upper := push_loop (fun i _ => band_entry Math_pow prices period stdDev PrimFloat.add i) (len prices);
       lower := push_loop (fun i _ => band_entry Math_pow prices period stdDev PrimFloat.sub i) (len prices);
       middle := calculateSMA prices period |}.
Proof.
  unfold calculateBollingerBands.
  match goal with
  | |- (let '(u, l) := ?x in _) = _ =>
      assert (E : x = (push_loop (fun i (_ : list number) =>
                         band_entry Math_pow prices period stdDev PrimFloat.add i) (len prices),
                       push_loop (fun i (_ : list number) =>
                         band_entry Math_pow prices period stdDev PrimFloat.sub i) (len prices)))
  end.
  { rewrite <- (for_loop_push2
                  (fun i (_ : list number) => band_entry Math_pow prices period stdDev PrimFloat.add i)
                  (fun i (_ : list number) => band_entry Math_pow prices period stdDev PrimFloat.sub i)).
    apply for_loop_ext. intros i [u l] _. unfold band_entry.
    now destruct (i <? period - 1). }
  now rewrite E.
Qed.

Lemma len_bands :
  let b := calculateBollingerBands Math_pow prices period stdDev in
  len (upper b) = len prices /\ len (lower b) = len prices
  /\ len (middle b) = len prices.
Proof.
  rewrite calculateBollingerBands_push. cbn [upper lower middle].
  rewrite !len_push_loop by apply len_nonneg.
  now rewrite len_calculateSMA.
Qed.
End Bollinger.

End TIFacts.

Import TechnicalIndicators TIFacts.

(** ** Properties of components/TechnicalIndicators.tsx *)

(** C9.  Every indicator of TechnicalIndicators.tsx returns arrays of the
    input's length: calculateSMA, calculateEMA and calculateRSI for every
    price list and period, the macd and signal arrays of calculateMACD, and
    the upper, lower and middle arrays of calculateBollingerBands.  Hence
    every field that calculateIndicators reads at the index of a data item
    is an element of its array, never [undefined]. *)
Theorem indicators_preserve_length :
  forall (Math_pow : number -> number -> number) (prices : list number),
    (forall period,
        len (calculateSMA prices period) = len prices
        /\ len (calculateEMA prices period) = len prices
        /\ len (calculateRSI prices period) = len prices)
    /\ len (macd (calculateMACD prices)) = len prices
    /\ len (signal (calculateMACD prices)) = len prices
    /\ (forall period stdDev,
          let b := calculateBollingerBands Math_pow prices period stdDev in
          len (upper b) = len prices /\ len (lower b) = len prices
          /\ len (middle b) = len prices)
    /\ (forall data inds,
          calculateIndicators Math_pow data = Some inds ->
          len inds = len data
          /\ forall i r, lookup inds i = Some r ->
               sma20 r <> None /\ sma50 r <> None /\ ema12 r <> None
               /\ ema26 r <> None /\ rsi r <> None /\ ind_macd r <> None
               /\ ind_signal r <> None /\ bollinger_upper r <> None
               /\ bollinger_lower r <> None /\ bollinger_middle r <> None).
Proof.
  intros Math_pow prices.
  split; [intros period; split; [apply len_calculateSMA|];
          split; [apply len_calculateEMA | apply len_calculateRSI]|].
  split; [apply len_macd|]. split; [apply len_signal|].
  split; [intros period stdDev; apply len_bands|].
  intros data inds H. unfold calculateIndicators in H.
  destruct (len (map _ data) =? 0); [discriminate|].
  injection H as <-. split.
  - apply len_mapi.
  - intros i r Hr. rewrite lookup_mapi in Hr.
    destruct (lookup data i) as [item|] eqn:Ei; [|discriminate].
    apply lookup_some_range in Ei.
    injection Hr as <-.
    cbn [sma20 sma50 ema12 ema26 rsi ind_macd ind_signal bollinger_upper
         bollinger_lower bollinger_middle].
    set (ps := map (fun d => or_num (close d) (price d)) data).
    assert (Hps : len ps = len data) by (unfold ps, len; now rewrite length_map).
    pose proof (len_bands Math_pow ps 20 2) as (Hu & Hl & Hm).
    unfold calculateBollingerBands_default.
    repeat split; apply lookup_in_range;
      rewrite ?len_calculateSMA, ?len_calculateEMA, ?len_signal, ?len_macd,
        ?Hu, ?Hl, ?Hm; unfold calculateRSI_default;
      rewrite ?len_calculateRSI; try lia.
    + pose proof (len_macd ps) as HH.
      unfold calculateMACD in HH. cbn [macd] in HH.
      rewrite HH. lia.
    + pose proof (len_signal ps) as HH.
      unfold calculateMACD in HH. cbn [signal] in HH.
      rewrite len_calculateEMA in HH. rewrite HH. lia.
Qed.

(** Witness of C9: three bars, squaring by multiplication. *)
Lemma indicators_preserve_length_witness :
  let pow2 := fun x _ : number => (x * x)%float in
  let data := map (fun c => mkBar String.EmptyString c c) [10; 11; 13]%float in
  exists inds,
    calculateIndicators pow2 data = Some inds /\ len inds = len data.
Proof.
  intros pow2 data.
  destruct (calculateIndicators pow2 data) as [inds|] eqn:E;
    [|vm_compute in E; discriminate].
  exists inds. split; [reflexivity|].
  destruct (@indicators_preserve_length pow2 (map close data))
    as (_ & _ & _ & _ & H).
  exact (proj1 (H data inds E)).
Defined.

(** C3.  For a period [p >= 1] and a price list of length at least [p],
    calculateEMA returns a list of the input's length that is NaN at every
    index below [p-1], holds the arithmetic mean of the first [p] prices at
    index [p-1], and at every index [i >= p] holds
    [prices[i]*k + ema[i-1]*(1-k)] with [k = 2/(p+1)]. *)
Theorem calculateEMA_spec :
  forall (prices : list number) (period : Z),
    1 <= period -> period <= len prices ->
    let ema := calculateEMA prices period in
    let k := (2 / (of_Z period + 1))%float in
    len ema = len prices
    /\ (forall i, 0 <= i < period - 1 -> lookup ema i = Some NaN)
    /\ lookup ema (period - 1)
       = Some (arithmetic_mean (firstn (Z.to_nat period) prices))
    /\ (forall i, period <= i < len prices ->
          exists x prev,
            lookup prices i = Some x /\ lookup ema (i - 1) = Some prev
            /\ lookup ema i = Some (x * k + prev * (1 - k))%float).
Proof.
  intros prices period Hp Hlen ema k. subst ema k.
  split; [apply len_calculateEMA|].
  rewrite calculateEMA_push. repeat split.
  - intros i Hi. rewrite lookup_push_loop by lia. unfold ema_entry.
    destruct (Z.ltb_spec i (period - 1)) as [_|?]; [reflexivity|lia].
  - rewrite lookup_push_loop by lia. unfold ema_entry.
    destruct (Z.ltb_spec (period - 1) (period - 1)) as [?|_]; [lia|].
    rewrite Z.eqb_refl. rewrite initial_sum_total by lia.
    unfold arithmetic_mean, Math_min. rewrite Z.min_l by lia.
    do 3 f_equal. unfold len. rewrite length_firstn. unfold len in Hlen. lia.
  - intros i Hi. exists (get prices i).
    exists (get (push_loop (ema_entry prices period) (len prices)) (i - 1)).
    split; [apply lookup_some_get; lia|].
    split; [apply lookup_some_get; rewrite len_push_loop; lia|].
    rewrite lookup_push_loop by lia. unfold ema_entry at 1.
    destruct (Z.ltb_spec i (period - 1)) as [?|_]; [lia|].
    destruct (Z.eqb_spec i (period - 1)) as [?|_]; [lia|].
    now rewrite !get_push_loop by lia.
Qed.

(** Witness of C3: three prices, period 2. *)
Lemma calculateEMA_spec_witness :
  let prices := [10; 11; 13]%float in
  len (calculateEMA prices 2) = len prices
  /\ lookup (calculateEMA prices 2) 1
     = Some (arithmetic_mean (firstn 2 prices)).
Proof.
  pose proof (@calculateEMA_spec [10; 11; 13]%float 2) as H.
  cbv zeta in H.
  destruct H as (H1 & _ & H3 & _); [lia | vm_compute; discriminate |].
  split; [exact H1 | exact H3].
Defined.

(** C5.  For a period [p] (a count of prices, [p >= 0]) and a width [w],
    calculateBollingerBands returns three lists of the input's length; below
    index [p-1] all three are NaN; at every index [i >= p-1] the middle band
    is the arithmetic mean
    of the [p] prices ending at [i], and the upper and lower bands are that
    mean plus and minus the standard deviation of those [p] prices (about
    that mean, denominator [p]) times [w]. *)
Theorem calculateBollingerBands_spec :
  forall (Math_pow : number -> number -> number) (prices : list number)
         (period : Z) (w : number),
    0 <= period ->
    let b := calculateBollingerBands Math_pow prices period w in
    (len (middle b) = len prices /\ len (upper b) = len prices
     /\ len (lower b) = len prices)
    /\ (forall i, 0 <= i < len prices -> i < period - 1 ->
          lookup (middle b) i = Some NaN /\ lookup (upper b) i = Some NaN
          /\ lookup (lower b) i = Some NaN)
    /\ (forall i, 0 <= i -> period - 1 <= i < len prices ->
          let win := window prices period i in
          let mean := arithmetic_mean win in
          let sd := standard_deviation Math_pow win mean (of_Z period) in
          len win = period
          /\ lookup (middle b) i = Some mean
          /\ lookup (upper b) i = Some (mean + sd * w)%float
          /\ lookup (lower b) i = Some (mean - sd * w)%float).
Proof.
  intros Math_pow prices period w Hp b.
  pose proof (len_bands Math_pow prices period w) as (Hu & Hl & Hm).
  fold b in Hu, Hl, Hm.
  split; [repeat split; assumption|].
  subst b. rewrite calculateBollingerBands_push in *.
  cbn [upper lower middle] in *. rewrite calculateSMA_push.
  split.
  - intros i Hi Hlt. rewrite !lookup_push_loop by lia.
    unfold sma_entry, band_entry.
    destruct (Z.ltb_spec i (period - 1)) as [_|?]; [|lia].
    repeat split.
  - intros i H0 Hi.
    set (win := window prices period i).
    set (mean := arithmetic_mean win).
    destruct (@slice_window prices period i Hp H0 Hi) as [Hs Hw].
    fold win in Hs, Hw.
    assert (Hmean : sma_entry prices period i = mean).
    { unfold sma_entry. destruct (Z.ltb_spec i (period - 1)) as [?|_]; [lia|].
      rewrite Hs. unfold mean, arithmetic_mean, total, reduce. now rewrite Hw. }
    split; [exact Hw|].
    rewrite !lookup_push_loop by lia. unfold band_entry.
    destruct (Z.ltb_spec i (period - 1)) as [?|_]; [lia|].
    rewrite calculateSMA_push, get_push_loop by lia. rewrite Hs, Hmean.
    repeat split.
Qed.

(** Witness of C5: four prices, period 2, width 2, squaring by
    multiplication. *)
Lemma calculateBollingerBands_spec_witness :
  let pow2 := fun x _ : number => (x * x)%float in
  let prices := [10; 12; 11; 15]%float in
  let b := calculateBollingerBands pow2 prices 2 2 in
  len (middle b) = len prices
  /\ lookup (middle b) 3 = Some (arithmetic_mean (window prices 2 3)).
Proof.
  pose proof (@calculateBollingerBands_spec
                (fun x _ => (x * x)%float) [10; 12; 11; 15]%float 2 2%float)
    as H.
  cbv zeta in H. destruct H as ((H1 & _) & _ & H3); [lia|].
  split; [exact H1|].
  destruct (H3 3) as (_ & Hm & _); [lia | vm_compute; split; congruence|].
  exact Hm.
Defined.

(** *** MACD *)

Lemma filter_defined_pad (k : nat) (line : list number) :
  Forall (fun x => defined x = true) line ->
  filter defined (repeat NaN k ++ line) = line.
Proof.
  intros H. rewrite filter_app.
  replace (filter defined (repeat NaN k)) with (@nil number).
  - simpl. induction H as [|x l Hx _ IH]; simpl; [reflexivity|].
    now rewrite Hx, IH.
  - induction k as [|k IH]; simpl; [reflexivity|exact IH].
Qed.

(** In a run of NaN followed by defined entries, every entry before an
    undefined one is undefined. *)
Lemma undefined_prefix (k : nat) (line : list number) (i j : nat) :
  Forall (fun x => defined x = true) line ->
  (i <= j < length (repeat NaN k ++ line))%nat ->
  defined (nth j (repeat NaN k ++ line) NaN) = false ->
  defined (nth i (repeat NaN k ++ line) NaN) = false.
Proof.
  intros Hline [Hij Hj] Hu.
  destruct (Nat.lt_ge_cases i k) as [Hik|Hik].
  - rewrite app_nth1 by (rewrite repeat_length; lia).
    now rewrite nth_repeat.
  - rewrite length_app, repeat_length in Hj.
    rewrite app_nth2 in Hu by (rewrite repeat_length; lia).
    rewrite repeat_length in Hu.
    rewrite Forall_forall in Hline.
    rewrite Hline in Hu; [discriminate|].
    apply nth_In. lia.
Qed.

Lemma macd_entries (prices : list number) (i : Z) :
  0 <= i < len prices ->
  lookup (macd (calculateMACD prices)) i
  = Some (if isNaN (get (calculateEMA prices 12) i)
             || isNaN (get (calculateEMA prices 26) i) then NaN
          else (get (calculateEMA prices 12) i
                - get (calculateEMA prices 26) i)%float).
Proof.
  intros H. cbn [calculateMACD macd]. rewrite lookup_mapi.
  rewrite lookup_some_get by (rewrite len_calculateEMA; exact H).
  reflexivity.
Qed.

(** Counterexample to C4 as stated: when the last price is missing, the
    last MACD entry is undefined while earlier ones are defined, so the
    undefined entries of the MACD line are not a run on the left that the
    padding of the signal could cover. *)
Lemma macd_described_fails : ~ macd_described prices_missing_last.
Proof.
  intros (_ & _ & k & line & Hm & Hline & _).
  assert (Hlast : defined (nth 34 (macd (calculateMACD prices_missing_last))
                              NaN) = false) by (vm_compute; reflexivity).
  assert (Hmid : defined (nth 25 (macd (calculateMACD prices_missing_last))
                             NaN) = true) by (vm_compute; reflexivity).
  assert (Hlen : length (macd (calculateMACD prices_missing_last)) = 35%nat)
    by (vm_compute; reflexivity).
  rewrite Hm in Hlast, Hmid, Hlen.
  rewrite (@undefined_prefix k line 25 34 Hline) in Hmid;
    [discriminate | lia | exact Hlast].
Qed.

(** C4, amended.  For every price list, each macd entry is the 12-period
    EMA minus the 26-period EMA at that index where both are defined and NaN
    otherwise; the signal has the length of the macd array and is the
    9-period EMA of the defined macd entries, padded on the left with one
    NaN per undefined macd entry; and whenever the undefined macd entries
    all come first, the padding sits exactly at the undefined entries. *)
Theorem calculateMACD_spec :
  forall prices : list number,
    let m := calculateMACD prices in
    (forall i, 0 <= i < len prices ->
       lookup (macd m) i
       = Some (if isNaN (get (calculateEMA prices 12) i)
                  || isNaN (get (calculateEMA prices 26) i) then NaN
               else (get (calculateEMA prices 12) i
                     - get (calculateEMA prices 26) i)%float))
    /\ len (signal m) = len (macd m)
    /\ signal m
       = repeat NaN (length (macd m) - length (filter defined (macd m)))
         ++ calculateEMA (filter defined (macd m)) 9
    /\ (forall (k : nat) (line : list number),
          macd m = repeat NaN k ++ line ->
          Forall (fun x => defined x = true) line ->
          signal m = repeat NaN k ++ calculateEMA line 9).
Proof.
  intros prices m.
  assert (Hsig : signal m
       = repeat NaN (length (macd m) - length (filter defined (macd m)))
         ++ calculateEMA (filter defined (macd m)) 9).
  { subst m. cbn [calculateMACD macd signal].
    change (fun val : number => negb (isNaN val)) with defined.
    f_equal. unfold Array_fill. f_equal. rewrite len_calculateEMA.
    unfold len. lia. }
  split; [apply macd_entries|].
  split; [subst m; now rewrite len_signal, len_macd|].
  split; [exact Hsig|].
  intros k line Hm Hline. rewrite Hsig, Hm.
  rewrite filter_defined_pad by assumption.
  rewrite length_app, repeat_length. do 2 f_equal. lia.
Qed.

(** Witness of C4: forty prices; the macd array is undefined exactly at its
    first twenty-five entries. *)
Lemma calculateMACD_spec_witness :
  let prices := map (fun k => of_Z (100 + (k * k) mod 7)) (range 0 40) in
  let m := calculateMACD prices in
  signal m = repeat NaN 25 ++ calculateEMA (skipn 25 (macd m)) 9.
Proof.
  intros prices m.
  destruct (calculateMACD_spec prices) as (_ & _ & _ & H).
  apply H.
  - vm_compute. reflexivity.
  - apply Forall_forall. apply forallb_forall. vm_compute. reflexivity.
Defined.

(** *** RSI *)

Lemma price_changes_push (prices : list number) :
  price_changes prices
  = (push_loop (fun i _ => gain_entry prices i) (len prices - 1),
     push_loop (fun i _ => loss_entry prices i) (len prices - 1)).
Proof.
  unfold price_changes.
  rewrite for_loop_from_1.
  rewrite <- (for_loop_push2 (fun i (_ : list number) => gain_entry prices i)
                (fun i (_ : list number) => loss_entry prices i)).
  apply for_loop_ext. now intros i [gains losses] _.
Qed.

Lemma len_price_changes (prices : list number) :
  len (fst (price_changes prices)) = Z.max (len prices - 1) 0
  /\ len (snd (price_changes prices)) = Z.max (len prices - 1) 0.
Proof.
  rewrite price_changes_push. cbn [fst snd]. unfold len.
  rewrite !length_push_loop. lia.
Qed.

(** What the code computes instead: the entry at index [i >= p] is taken
    from the averages at index [i - p] of the arrays of changes, [p - 1]
    places before the change that ends at [i]. *)
Lemma calculateRSI_entries (prices : list number) (p i : Z) :
  p <= i -> 0 <= i < len prices ->
  lookup (calculateRSI prices p) i
  = Some (rsi_value
            (get (calculateEMA (fst (price_changes prices)) p) (i - p))
            (get (calculateEMA (snd (price_changes prices)) p) (i - p))).
Proof.
  intros Hp Hi. rewrite calculateRSI_push, lookup_push_loop by lia.
  unfold rsi_entry. destruct (Z.ltb_spec i p) as [?|_]; [lia|reflexivity].
Qed.

Lemma calculateRSI_warmup (prices : list number) (p i : Z) :
  0 <= i < len prices -> i < p ->
  lookup (calculateRSI prices p) i = Some NaN.
Proof.
  intros Hi Hp. rewrite calculateRSI_push, lookup_push_loop by lia.
  unfold rsi_entry. destruct (Z.ltb_spec i p) as [_|?]; [reflexivity|lia].
Qed.

(** Hence the entries at indices [p .. 2p-2] are NaN as well. *)
Lemma calculateRSI_gap (prices : list number) (p i : Z) :
  p <= i < 2 * p - 1 -> 0 <= i < len prices ->
  lookup (calculateRSI prices p) i = Some NaN.
Proof.
  intros Hp Hi. rewrite calculateRSI_entries by lia.
  assert (G : forall a, get (calculateEMA a p) (i - p) = NaN).
  { intros a. destruct (Z.lt_ge_cases (i - p) (len a)) as [Hin|Hout].
    - rewrite calculateEMA_push, get_push_loop by lia.
      unfold ema_entry.
      destruct (Z.ltb_spec (i - p) (p - 1)) as [_|?]; [reflexivity|lia].
    - apply get_outside. rewrite len_calculateEMA. now right. }
  now rewrite !G.
Qed.

(** C2 at the failing input: with the default period 14 and sixteen rising
    prices, the textbook RSI at indices 14 and 15 is 100 (no losses), and
    calculateRSI returns NaN there. *)
Theorem calculateRSI_lags_behind :
  lookup (calculateRSI_default rising_prices) 14 = Some NaN
  /\ lookup (calculateRSI_default rising_prices) 15 = Some NaN
  /\ textbook_rsi rising_prices 14 14 = 100%float
  /\ textbook_rsi rising_prices 14 15 = 100%float
  /\ ~ rsi_described rising_prices 14.
Proof.
  assert (H14 : lookup (calculateRSI_default rising_prices) 14 = Some NaN)
    by (vm_compute; reflexivity).
  assert (T14 : textbook_rsi rising_prices 14 14 = 100%float)
    by (vm_compute; reflexivity).
  repeat split; try (vm_compute; reflexivity).
  intros (_ & _ & H). specialize (H 14).
  unfold calculateRSI_default in H14. rewrite H14, T14 in H.
  assert (E : Some NaN = Some 100%float) by (apply H; vm_compute; split; congruence).
  apply (f_equal (fun o => match o with Some x => isNaN x | None => false end))
    in E.
  vm_compute in E. discriminate.
Qed.

(** ** AIInsights.tsx against TechnicalIndicators.tsx *)

Lemma get_skipn (a : list number) (k : nat) (i : Z) :
  0 <= i -> get (skipn k a) i = get a (i + Z.of_nat k).
Proof.
  intros H. unfold get.
  destruct (Z.ltb_spec i 0) as [?|_]; [lia|].
  destruct (Z.ltb_spec (i + Z.of_nat k) 0) as [?|_]; [lia|].
  replace (Z.to_nat (i + Z.of_nat k)) with (k + Z.to_nat i)%nat by lia.
  revert a. induction k as [|k IH]; intros a; [reflexivity|].
  destruct a as [|x a]; simpl; [now destruct (Z.to_nat i)|apply IH].
Qed.

Lemma slice_firstn {A} (a : list A) (p : Z) :
  0 <= p <= len a -> slice a 0 p = firstn (Z.to_nat p) a.
Proof.
  intros H. unfold slice, rel_index. simpl (0 <? 0).
  destruct (Z.ltb_spec p 0) as [?|_]; [lia|].
  rewrite !Z.min_l by lia. now rewrite Z.sub_0_r.
Qed.

(** Where the data has at least [period] entries, calculateEMA of
    AIInsights.tsx is calculateEMA of TechnicalIndicators.tsx without its
    [period - 1] leading NaN entries. *)
Lemma AI_calculateEMA_tail (data : list number) (period : Z) :
  1 <= period <= len data ->
  AIInsights.calculateEMA data period
  = skipn (Z.to_nat (period - 1)) (calculateEMA data period).
Proof.
  intros H. unfold AIInsights.calculateEMA.
  destruct (Z.ltb_spec (len data) period) as [?|_]; [lia|].
  rewrite calculateEMA_push.
  set (g := ema_entry data period).
  set (k := (2 / (of_Z period + 1))%float).
  set (body := fun (i : Z) '(ema, emaValues) => _).
  assert (Hseed : skipn (Z.to_nat (period - 1)) (push_loop g period)
                  = [g (period - 1) (push_loop g (period - 1))]).
  { replace period with (period - 1 + 1) at 2 by lia.
    rewrite push_loop_succ by lia. rewrite skipn_app, length_push_loop.
    rewrite Nat.sub_diag. simpl skipn at 2.
    rewrite skipn_all2 by (rewrite length_push_loop; lia). reflexivity. }
  enough (P : let s := for_loop period (len data) body
                         ((reduce (fun sum val => sum + val)
                             (slice data 0 period) 0 / of_Z period)%float,
                          [(reduce (fun sum val => sum + val)
                              (slice data 0 period) 0 / of_Z period)%float]) in
              snd s = skipn (Z.to_nat (period - 1)) (push_loop g (len data))
              /\ fst s = get (push_loop g (len data)) (len data - 1))
    by apply P.
  apply for_loop_inv
    with (P := fun i s =>
                 snd s = skipn (Z.to_nat (period - 1)) (push_loop g i)
                 /\ fst s = get (push_loop g i) (i - 1)).
  - lia.
  - cbn [fst snd]. rewrite Hseed, get_push_loop by lia.
    assert (E : g (period - 1) (push_loop g (period - 1))
                = (reduce (fun sum val => sum + val) (slice data 0 period) 0
                   / of_Z period)%float).
    { unfold g, ema_entry.
      destruct (Z.ltb_spec (period - 1) (period - 1)) as [?|_]; [lia|].
      rewrite Z.eqb_refl, initial_sum_total by lia.
      unfold Math_min. rewrite Z.min_l by lia.
      now rewrite slice_firstn by lia. }
    now rewrite E.
  - intros i [ema vals] Hi [Hv He]. cbn [fst snd] in *. subst ema vals.
    assert (E : g i (push_loop g i)
                = ((get data i * k)
                   + (get (push_loop g i) (i - 1) * (1 - k)))%float).
    { unfold g at 1, ema_entry.
      destruct (Z.ltb_spec i (period - 1)) as [?|_]; [lia|].
      destruct (Z.eqb_spec i (period - 1)) as [?|_]; [lia|]. reflexivity. }
    unfold body. cbn [fst snd]. rewrite <- E. split.
    + rewrite push_loop_succ by lia. rewrite skipn_app, length_push_loop.
      replace (Z.to_nat (period - 1) - Z.to_nat i)%nat with 0%nat by lia.
      reflexivity.
    + replace (i + 1 - 1) with i by lia. now rewrite get_push_loop by lia.
Qed.

Lemma AI_calculateEMA_last (data : list number) (period : Z) :
  1 <= period <= len data ->
  let ema := AIInsights.calculateEMA data period in
  get ema (len ema - 1) = get (calculateEMA data period) (len data - 1).
Proof.
  intros H ema. subst ema. rewrite AI_calculateEMA_tail by assumption.
  assert (L : len (skipn (Z.to_nat (period - 1)) (calculateEMA data period))
              = len data - (period - 1)).
  { pose proof (len_calculateEMA data period) as E. unfold len in *.
    rewrite length_skipn. lia. }
  rewrite L, get_skipn by lia. f_equal. lia.
Qed.

Lemma AI_changes (data : list Bar) :
  for_loop 1 (len data) (fun i '(gains, losses) =>
    let change := (close_at data i - close_at data (i - 1))%float in
    (push gains (if gt change 0 then change else 0%float),
     push losses (if lt change 0 then Math_abs change else 0%float)))
    ([], [])
  = price_changes (map close data).
Proof.
  unfold price_changes, close_at, len. now rewrite length_map.
Qed.

(** Counterexample to C1 as stated: on thirty bars the arrays of App.tsx
    and of TechnicalIndicators.tsx both hold a number at index 27, and the
    two numbers differ. *)
Lemma rsi_routines_disagree : ~ rsi_routines_agree sample_bars.
Proof.
  intros [H _].
  destruct (lookup (App.calculateRSI_default sample_bars) 27)
    as [[x|]|] eqn:Ex; try (vm_compute in Ex; discriminate).
  destruct (lookup (calculateRSI_default (map close sample_bars)) 27)
    as [y|] eqn:Ey; try (vm_compute in Ey; discriminate).
  assert (Hx : defined x = true).
  { vm_compute in Ex. injection Ex as <-. reflexivity. }
  assert (Hy : defined y = true).
  { vm_compute in Ey. injection Ey as <-. reflexivity. }
  specialize (H 27 x y (conj Ex (conj Hx (conj Ey Hy)))).
  vm_compute in Ex, Ey. injection Ex as <-. injection Ey as <-.
  apply (f_equal (fun v => PrimFloat.eqb v 50)) in H.
  vm_compute in H. discriminate.
Qed.

(** C1, amended.  TechnicalIndicators.tsx and AIInsights.tsx smooth with
    the same exponential average: for [1 <= p <= length] the calculateEMA of
    AIInsights.tsx is that of TechnicalIndicators.tsx without its leading
    NaN entries.  For at least [p + 1] bars the value of calculateRSI in
    AIInsights.tsx is the RSI formula of TechnicalIndicators.tsx on the last
    smoothed gain and loss, that is the textbook RSI at the last index. *)
Theorem AI_calculateRSI_spec :
  forall (data : list Bar) (p : Z),
    1 <= p -> p + 1 <= len data ->
    (forall a : list number, p <= len a ->
       AIInsights.calculateEMA a p
       = skipn (Z.to_nat (p - 1)) (calculateEMA a p))
    /\ AIInsights.calculateRSI data p
       = textbook_rsi (map close data) p (len data - 1).
Proof.
  intros data p Hp Hlen. split.
  - intros a Ha. apply AI_calculateEMA_tail. lia.
  - unfold AIInsights.calculateRSI, textbook_rsi.
    destruct (Z.ltb_spec (len data) (p + 1)) as [?|_]; [lia|].
    rewrite AI_changes.
    pose proof (len_price_changes (map close data)) as [Lg Ll].
    destruct (price_changes (map close data)) as [gains losses].
    cbn [fst snd] in Lg, Ll.
    assert (Lm : len (map close data) = len data)
      by (unfold len; now rewrite length_map).
    rewrite Lm in Lg, Ll.
    rewrite !AI_calculateEMA_last by lia.
    replace (len gains - 1) with (len data - 1 - 1) by lia.
    replace (len losses - 1) with (len data - 1 - 1) by lia.
    reflexivity.
Qed.

(** Witness of C1 amended: the thirty bars, period 14. *)
Lemma AI_calculateRSI_spec_witness :
  AIInsights.calculateRSI sample_bars 14
  = textbook_rsi (map close sample_bars) 14 (len sample_bars - 1).
Proof.
  apply (@AI_calculateRSI_spec sample_bars 14); [lia | vm_compute; discriminate].
Defined.

(** ** AIInsights.tsx: exponential average of a short series *)

Lemma lookup_skipn_1 {A} (a : list A) (i : Z) :
  0 <= i -> lookup (skipn 1 a) i = lookup a (i + 1).
Proof.
  intros H. unfold lookup.
  destruct (Z.ltb_spec i 0) as [?|_]; [lia|].
  destruct (Z.ltb_spec (i + 1) 0) as [?|_]; [lia|].
  replace (Z.to_nat (i + 1)) with (S (Z.to_nat i)) by lia.
  destruct a as [|x a]; simpl; [now destruct (Z.to_nat i)|reflexivity].
Qed.

Lemma slice_from_1 {A} (a : list A) : slice a 1 (len a) = skipn 1 a.
Proof.
  unfold slice, rel_index. simpl (1 <? 0).
  pose proof (len_nonneg a) as H.
  destruct (Z.ltb_spec (len a) 0) as [?|_]; [lia|].
  rewrite Z.min_id.
  destruct (Z.le_gt_cases 1 (len a)) as [H1|H1].
  - rewrite Z.min_l by lia. change (Z.to_nat 1) with 1%nat.
    apply firstn_all2. unfold len in *. rewrite length_skipn.
    change (1 <? 0) with false. lia.
  - destruct a as [|x a]; [reflexivity|]. unfold len in H1. simpl in H1. lia.
Qed.

Section LogReturns.
Variable Math_log : number -> number.
Variable data : list Bar.

Lemma len_log_returns :
  len (AIInsights.log_returns Math_log data) = Z.max (len data - 1) 0.
Proof.
  unfold AIInsights.log_returns. rewrite len_mapi, slice_from_1.
  unfold len. rewrite length_skipn. lia.
Qed.

Lemma lookup_log_returns (i : Z) :
  0 <= i < len data - 1 ->
  lookup (AIInsights.log_returns Math_log data) i
  = Some (Math_log (close_at data (i + 1) / close_at data i)%float).
Proof.
  intros H. unfold AIInsights.log_returns.
  rewrite lookup_mapi, slice_from_1, lookup_skipn_1 by lia.
  destruct (lookup data (i + 1)) as [item|] eqn:E.
  - simpl. do 3 f_equal. unfold close_at. symmetry. apply lookup_get.
    unfold lookup in *. destruct (i + 1 <? 0); [discriminate|].
    rewrite nth_error_map, E. reflexivity.
  - exfalso. revert E. apply lookup_in_range. lia.
Qed.
End LogReturns.

(** C10.  On a list strictly shorter than the period, calculateEMA of
    AIInsights.tsx returns the list itself.  Hence calculateVolatility,
    which smooths the log returns with period 20, takes the last raw log
    return as the mean whenever the series has at least two bars and fewer
    than twenty log returns; on fewer than two bars it returns 0. *)
Theorem AI_calculateEMA_short :
  (forall (data : list number) (period : Z),
      len data < period -> AIInsights.calculateEMA data period = data)
  /\ (forall (Math_log : number -> number) (data : list Bar),
        2 <= len data -> len data <= 20 ->
        let returns := AIInsights.log_returns Math_log data in
        let n := len data in
        let last_return :=
          Math_log (close_at data (n - 1) / close_at data (n - 2))%float in
        len returns = n - 1
        /\ lookup returns (n - 2) = Some last_return
        /\ AIInsights.calculateVolatility Math_log data
           = AIInsights.smoothed_volatility returns last_return)
  /\ (forall (Math_log : number -> number) (data : list Bar),
        len data < 2 ->
        AIInsights.calculateVolatility Math_log data = 0%float).
Proof.
  split; [|split].
  - intros data period H. unfold AIInsights.calculateEMA.
    destruct (Z.ltb_spec (len data) period) as [_|?]; [reflexivity|lia].
  - intros Math_log data H2 H20 returns n last_return.
    assert (L : len returns = n - 1).
    { unfold returns. rewrite len_log_returns. lia. }
    assert (E : lookup returns (n - 2) = Some last_return).
    { unfold returns. rewrite lookup_log_returns by lia.
      unfold last_return. now replace (n - 2 + 1) with (n - 1) by lia. }
    split; [exact L|]. split; [exact E|].
    unfold AIInsights.calculateVolatility.
    destruct (Z.ltb_spec (len data) 2) as [?|_]; [lia|].
    fold returns. unfold AIInsights.calculateEMA.
    destruct (Z.ltb_spec (len returns) 20) as [_|?]; [|lia].
    rewrite L. replace (n - 1 - 1) with (n - 2) by lia.
    now rewrite (lookup_get _ _ E).
  - intros Math_log data H. unfold AIInsights.calculateVolatility.
    destruct (Z.ltb_spec (len data) 2) as [_|?]; [reflexivity|lia].
Qed.

(** Witness of C10: a list of three numbers with period 20. *)
Lemma AI_calculateEMA_short_witness :
  AIInsights.calculateEMA [1; 2; 3]%float 20 = [1; 2; 3]%float.
Proof.
  destruct AI_calculateEMA_short as [H _]. apply H. vm_compute. reflexivity.
Defined.

(** ** The RiskAnalysis component *)

Import RiskAnalysis.

Lemma calculateReturns_push (data : list Bar) :
  calculateReturns data
  = push_loop (fun i _ =>
      ((close_at data (i + 1) - close_at data (i + 1 - 1))
       / close_at data (i + 1 - 1))%float) (len data - 1).
Proof.
  unfold calculateReturns, push_loop. now rewrite for_loop_from_1.
Qed.

(** C6.  On at least two returns calculateVolatility is the annualized
    volatility in percent, the square root of the sample variance
    (denominator [n - 1]) times 252, times 100; on fewer it is 0.  The
    returns computed by calculateReturns are the simple returns
    [(close[i] - close[i-1]) / close[i-1]]. *)
Theorem calculateVolatility_spec :
  forall (Math_pow : number -> number -> number),
    (forall returns : list number,
        2 <= len returns ->
        calculateVolatility Math_pow returns
        = annualized_volatility_percent Math_pow returns)
    /\ (forall returns : list number,
          len returns < 2 -> calculateVolatility Math_pow returns = 0%float)
    /\ (forall data : list Bar,
          len (calculateReturns data) = Z.max (len data - 1) 0
          /\ forall i, 1 <= i < len data ->
               lookup (calculateReturns data) (i - 1)
               = Some ((close_at data i - close_at data (i - 1))
                       / close_at data (i - 1))%float).
Proof.
  intros Math_pow. split; [|split].
  - intros returns H. unfold calculateVolatility.
    destruct (Z.ltb_spec (len returns) 2) as [?|_]; [lia|]. reflexivity.
  - intros returns H. unfold calculateVolatility.
    destruct (Z.ltb_spec (len returns) 2) as [_|?]; [reflexivity|lia].
  - intros data. rewrite calculateReturns_push. split.
    + unfold len. rewrite length_push_loop. lia.
    + intros i Hi. rewrite lookup_push_loop by lia.
      now replace (i - 1 + 1) with i by lia.
Qed.

(** Witness of C6: three returns, squaring by multiplication. *)
Lemma calculateVolatility_spec_witness :
  let pow2 := fun x _ : number => (x * x)%float in
  let returns := [0.5; -0.25; 0.125]%float in
  calculateVolatility pow2 returns = annualized_volatility_percent pow2 returns.
Proof.
  intros pow2 returns.
  destruct (calculateVolatility_spec pow2) as [H _].
  apply H. vm_compute. discriminate.
Defined.

(** *** Two facts of binary64 arithmetic *)

Module FloatFacts.

Lemma binary_round_aux_not_negative (m e : Z) (l : location) :
  sf_negative (binary_round_aux prec emax false m e l) = false.
Proof.
  unfold binary_round_aux.
  destruct (shr_fexp prec emax m e l) as [r1 e1].
  destruct (shr_fexp prec emax _ e1 loc_Exact) as [r2 e2].
  destruct (shr_m r2); [reflexivity| |reflexivity].
  now destruct (e2 <=? emax - prec).
Qed.

Lemma binary_round_not_negative (m : positive) (e : Z) :
  sf_negative (binary_round prec emax false m e) = false.
Proof.
  unfold binary_round. destruct (shl_align m e _) as [mz ez].
  apply binary_round_aux_not_negative.
Qed.

Lemma binary_normalize_negative (m e : Z) :
  sf_negative (binary_normalize prec emax m e false) = true -> m < 0.
Proof.
  destruct m as [|m|m]; simpl.
  - discriminate.
  - now rewrite binary_round_not_negative.
  - intros _. reflexivity.
Qed.

Lemma binary_normalize_not_negative (m e : Z) :
  0 <= m -> sf_negative (binary_normalize prec emax m e false) = false.
Proof.
  destruct m as [|m|m]; simpl; intros H.
  - reflexivity.
  - apply binary_round_not_negative.
  - lia.
Qed.

(** If [x - y] is below zero then [y - x] is not. *)
Lemma SFsub_asym (x y : spec_float) :
  sf_negative (SF64sub x y) = true -> sf_negative (SF64sub y x) = false.
Proof.
  unfold SF64sub.
  destruct x as [sx|sx| |sx mx ex], y as [sy|sy| |sy my ey];
    try solve [unfold sf_negative;
               repeat match goal with s : bool |- _ => destruct s end;
               cbn; congruence].
  unfold SFsub. rewrite (Z.min_comm ey ex). intros H.
  apply binary_normalize_negative in H.
  apply binary_normalize_not_negative. lia.
Qed.

Lemma lt_zero_spec (x : number) :
  lt x 0 = sf_negative (Prim2SF x).
Proof. unfold lt. now rewrite ltb_spec. Qed.

Lemma sub_sign_asym (a b : number) :
  lt (a - b) 0 = true -> lt (b - a) 0 = false.
Proof. rewrite !lt_zero_spec, !sub_spec. apply SFsub_asym. Qed.

(** For a positive finite [c], [(c - c) / c] is [0]. *)
Lemma self_difference_quotient (c : number) :
  lt 0 c = true -> lt c infinity = true -> ((c - c) / c)%float = 0%float.
Proof.
  unfold lt. rewrite !ltb_spec. intros Hpos Hfin.
  apply Prim2SF_inj. rewrite div_spec, sub_spec.
  destruct (Prim2SF c) as [s|s| |s m e]; try discriminate.
  - destruct s; discriminate.
  - destruct s; [discriminate|].
    unfold SF64sub, SFsub. rewrite Z.sub_diag. reflexivity.
Qed.

End FloatFacts.

(** *** Maximum drawdown *)

Lemma list_max_snoc (l : list number) (x : number) :
  l <> [] -> list_max (l ++ [x]) = larger (list_max l) x.
Proof.
  destruct l as [|y l]; [congruence|]. intros _. simpl.
  now rewrite fold_left_app.
Qed.

Lemma range_cons (a n : Z) : a < n -> range a n = a :: range (a + 1) n.
Proof.
  intros H. unfold range.
  replace (Z.to_nat (n - a)) with (S (Z.to_nat (n - (a + 1)))) by lia.
  simpl. rewrite Z.add_0_r. f_equal. rewrite <- seq_shift, map_map.
  apply map_ext. intros k. lia.
Qed.

Lemma running_peak_0 (closes : list number) :
  1 <= len closes -> running_peak closes 0 = get closes 0.
Proof.
  destruct closes as [|c t]; unfold len; simpl; [lia|reflexivity].
Qed.

Lemma running_peak_succ (closes : list number) (i : Z) :
  1 <= i < len closes ->
  running_peak closes i = larger (running_peak closes (i - 1)) (get closes i).
Proof.
  intros H. unfold running_peak.
  replace (i - 1 + 1) with i by lia.
  pose proof (@lookup_some_get closes i ltac:(lia)) as E. unfold lookup in E.
  destruct (Z.ltb_spec i 0) as [?|_]; [lia|].
  replace (Z.to_nat (i + 1)) with (S (Z.to_nat i)) by lia.
  rewrite (firstn_succ_nth_error _ _ E). apply list_max_snoc.
  destruct closes as [|c t]; [unfold len in H; simpl in H; lia|].
  replace (Z.to_nat i) with (S (Z.to_nat (i - 1))) by lia. discriminate.
Qed.

(** C8.  On fewer than two bars calculateMaxDrawdown is 0.  On at least
    two bars whose first close is a positive finite number it is the
    textbook maximum drawdown in percent: 100 times the maximum over all
    indices [i] of [(peak_i - close_i) / peak_i], with [peak_i] the running
    maximum of the closes up to and including [i]. *)
Theorem calculateMaxDrawdown_spec :
  forall data : list Bar,
    (len data < 2 -> calculateMaxDrawdown data = 0%float)
    /\ (2 <= len data ->
        lt 0 (close_at data 0) = true ->
        lt (close_at data 0) infinity = true ->
        calculateMaxDrawdown data = max_drawdown_percent (map close data)).
Proof.
  intros data. unfold calculateMaxDrawdown. split.
  - intros H. destruct (Z.ltb_spec (len data) 2) as [_|?]; [reflexivity|lia].
  - intros H Hpos Hfin.
    destruct (Z.ltb_spec (len data) 2) as [?|_]; [lia|].
    set (closes := map close data).
    assert (Hlen : len closes = len data)
      by (unfold closes, len; now rewrite length_map).
    unfold close_at in *. fold closes in Hpos, Hfin |- *.
    set (body := fun (i : Z) '(maxDrawdown, peak) => _).
    assert (Inv : let s := for_loop 1 (len data) body (0%float, get closes 0) in
                  snd s = running_peak closes (len data - 1)
                  /\ fst s = fold_left larger
                               (map (drawdown_at closes) (range 1 (len data)))
                               0%float).
    { apply for_loop_inv
        with (P := fun i s =>
                snd s = running_peak closes (i - 1)
                /\ fst s = fold_left larger
                             (map (drawdown_at closes) (range 1 i)) 0%float).
      - lia.
      - cbn [fst snd]. split; [|reflexivity].
        symmetry. apply running_peak_0. lia.
      - intros i [maxDrawdown peak] Hi [Hpeak Hmax]. cbn [fst snd] in *.
        subst peak maxDrawdown. unfold body. cbn [fst snd].
        replace (i + 1 - 1) with i by lia.
        assert (Hp : (if gt (get closes i) (running_peak closes (i - 1))
                      then get closes i else running_peak closes (i - 1))
                     = running_peak closes i).
        { rewrite (@running_peak_succ closes i) by lia. reflexivity. }
        rewrite Hp. split; [reflexivity|].
        rewrite range_snoc, map_app, fold_left_app by lia. reflexivity. }
    destruct (for_loop 1 (len data) body (0%float, get closes 0))
      as [maxDrawdown peak].
    cbn [fst snd] in Inv. destruct Inv as [_ ->].
    unfold max_drawdown_percent.
    rewrite Hlen, (@range_cons 0 (len data)) by lia.
    cbn [map list_max]. f_equal. f_equal.
    unfold drawdown_at. rewrite running_peak_0 by lia.
    symmetry. now apply FloatFacts.self_difference_quotient.
Qed.

(** Witness of C8: six closes. *)
Lemma calculateMaxDrawdown_spec_witness :
  let data := map (fun c => mkBar String.EmptyString c c)
                  [10; 12; 9; 11; 15; 12]%float in
  calculateMaxDrawdown data = max_drawdown_percent (map close data).
Proof.
  intros data. destruct (calculateMaxDrawdown_spec data) as [_ H].
  apply H; [vm_compute; discriminate | reflexivity | reflexivity].
Defined.

(** *** Value at risk *)

Lemma insert_perm (cmp : number -> number -> number) (x : number)
    (acc : list number) :
  Permutation (x :: acc) (insert cmp x acc).
Proof.
  induction acc as [|y t IH]; simpl; [reflexivity|].
  destruct (cmp x y <? 0)%float; [reflexivity|].
  rewrite perm_swap. now apply perm_skip.
Qed.

Lemma sort_perm_acc (cmp : number -> number -> number) (a acc : list number) :
  Permutation (a ++ acc) (fold_left (fun acc x => insert cmp x acc) a acc).
Proof.
  revert acc. induction a as [|x a IH]; intros acc; simpl; [reflexivity|].
  rewrite <- IH. rewrite <- (insert_perm cmp x acc).
  apply Permutation_middle.
Qed.

Lemma sort_perm (cmp : number -> number -> number) (a : list number) :
  Permutation a (sort cmp a).
Proof.
  unfold sort. rewrite <- sort_perm_acc. now rewrite app_nil_r.
Qed.

Lemma insert_sorted (x : number) (acc : list number) :
  Sorted may_follow acc -> Sorted may_follow (insert ascending x acc).
Proof.
  induction acc as [|y t IH]; simpl; intros H.
  - repeat constructor.
  - destruct (ascending x y <? 0)%float eqn:E.
    + constructor; [assumption|]. constructor.
      unfold may_follow. now apply FloatFacts.sub_sign_asym.
    + apply Sorted_inv in H. destruct H as [Ht Hy].
      constructor; [now apply IH|].
      destruct t as [|z t]; simpl.
      * constructor. exact E.
      * destruct (ascending x z <? 0)%float.
        -- constructor. exact E.
        -- constructor. now apply HdRel_inv in Hy.
Qed.

Lemma sort_sorted (a : list number) : Sorted may_follow (sort ascending a).
Proof.
  unfold sort.
  assert (G : forall acc, Sorted may_follow acc ->
                Sorted may_follow
                  (fold_left (fun acc x => insert ascending x acc) a acc)).
  { induction a as [|x a IH]; intros acc H; simpl; [assumption|].
    apply IH. now apply insert_sorted. }
  apply G. constructor.
Qed.

(** Counterexample to C7 as stated: for the two returns 1% and 2% at
    confidence 0.95 the element at the quantile is the gain 0.01, whose
    negation is a negative number, and calculateVaR returns 1. *)
Lemma var_described_fails : ~ var_described [0.01; 0.02]%float 0.95%float.
Proof.
  intros [_ H].
  assert (E : calculateVaR [0.01; 0.02]%float 0.95
              = negated_quantile_percent [0.01; 0.02]%float 0.95)
    by (apply H; [discriminate | reflexivity | reflexivity]).
  apply (f_equal (fun v => lt v 0)) in E. vm_compute in E. discriminate.
Qed.

(** C7, amended.  On the empty list calculateVaR is 0.  On a non-empty
    list none of whose returns is NaN, for every confidence level, it is
    100 times the absolute value of the element of the ascending-sorted
    returns at index [floor((1 - c) * n)], that index raised to 0 and
    lowered to [n - 1]; the sorted returns are a permutation of the returns
    in which no element compares below its predecessor.  (On returns
    holding NaN the comparator is inconsistent and the order of the sorted
    array, hence the element read, is the engine's choice.) *)
Theorem calculateVaR_spec :
  forall (returns : list number) (c : number),
    (returns = [] -> calculateVaR returns c = 0%float)
    /\ (returns <> [] -> no_NaN returns = true ->
        let sorted := sort ascending returns in
        Permutation returns sorted
        /\ Sorted may_follow sorted
        /\ calculateVaR returns c
           = (Math_abs (get_num sorted (var_index (of_Z (len returns)) c))
              * 100)%float).
Proof.
  intros returns c. split.
  - intros ->. reflexivity.
  - intros Hne _ sorted.
    split; [apply sort_perm|]. split; [apply sort_sorted|].
    unfold calculateVaR.
    destruct (Z.eqb_spec (len returns) 0) as [E|_].
    + destruct returns; [congruence|]. unfold len in E. simpl in E. lia.
    + change (sort (fun a b => (a - b)%float) returns) with sorted.
      assert (L : len sorted = len returns).
      { unfold len. f_equal. symmetry. apply Permutation_length.
        apply sort_perm. }
      rewrite L. reflexivity.
Qed.

(** Witness of C7 amended: three returns, none NaN, at confidence 0.75. *)
Lemma calculateVaR_spec_witness :
  let returns := [0.5; -0.25; 0.125]%float in
  no_NaN returns = true
  /\ Sorted may_follow (sort ascending returns)
  /\ calculateVaR returns 0.75
     = (Math_abs (get_num (sort ascending returns)
                    (var_index (of_Z (len returns)) 0.75)) * 100)%float.
Proof.
  intros returns.
  destruct (calculateVaR_spec returns 0.75) as [_ H].
  destruct H as (_ & Hs & Hv); [discriminate | reflexivity |].
  split; [reflexivity|]. split; [exact Hs | exact Hv].
Defined.


(** * Further properties of the components *)

(** ** Order facts of binary64 *)

Module FloatOrder.

Lemma SFcompare_Lt_Gt (x y : spec_float) :
  SFcompare x y = Some Lt -> SFcompare y x = Some Gt.
Proof.
  destruct x as [sx|sx| |sx mx ex], y as [sy|sy| |sy my ey];
    try solve [repeat match goal with s : bool |- _ => destruct s end;
               cbn; congruence].
  assert (A : Pos.compare_cont Eq my mx
              = CompOpp (Pos.compare_cont Eq mx my))
    by (symmetry; apply (Pos.compare_cont_antisym mx my Eq)).
  cbn. rewrite (Z.compare_antisym ex ey), A.
  destruct sx, sy; try congruence;
    destruct (ex ?= ey); cbn; try congruence;
    destruct (Pos.compare_cont Eq mx my); cbn; congruence.
Qed.

Lemma SFltb_asym (x y : spec_float) : SFltb x y = true -> SFltb y x = false.
Proof.
  unfold SFltb. destruct (SFcompare x y) as [[| |]|] eqn:E; try discriminate.
  intros _. now rewrite (SFcompare_Lt_Gt _ _ E).
Qed.

Lemma lt_asym (a b : number) : lt a b = true -> lt b a = false.
Proof. unfold lt. rewrite !ltb_spec. apply SFltb_asym. Qed.

Lemma lt_irrefl (a : number) : lt a a = false.
Proof.
  destruct (lt a a) eqn:E; [|reflexivity].
  pose proof (lt_asym E). congruence.
Qed.

Lemma lt_NaN_r (a : number) : lt a NaN = false.
Proof.
  unfold lt. rewrite ltb_spec. change (Prim2SF NaN) with S754_nan.
  unfold SFltb. now destruct (Prim2SF a).
Qed.

Lemma lt_NaN_l (a : number) : lt NaN a = false.
Proof. unfold lt. now rewrite ltb_spec. Qed.

(** Two positive finite numbers neither of which is below the other are
    the same number. *)
Lemma positive_finite_eq (a b : number) :
  positive_finite a -> positive_finite b ->
  lt a b = false -> lt b a = false -> a = b.
Proof.
  unfold positive_finite, lt. rewrite !ltb_spec.
  change (Prim2SF 0) with (S754_zero false).
  change (Prim2SF infinity) with (S754_infinity false).
  intros [Ha Ha'] [Hb Hb'] Hab Hba. apply Prim2SF_inj.
  destruct (Prim2SF a) as [sa|sa| |sa ma ea]; try discriminate;
    [destruct sa; discriminate|].
  destruct (Prim2SF b) as [sb|sb| |sb mb eb]; try discriminate;
    [destruct sb; discriminate|].
  destruct sa; [discriminate|]. destruct sb; [discriminate|].
  unfold SFltb in Hab, Hba. cbn in Hab, Hba.
  rewrite (Z.compare_antisym ea eb) in Hba.
  destruct (Z.compare_spec ea eb) as [E|E|E]; cbn in Hab, Hba;
    try discriminate.
  subst eb.
  assert (A : Pos.compare_cont Eq mb ma
              = CompOpp (Pos.compare_cont Eq ma mb))
    by (symmetry; apply (Pos.compare_cont_antisym ma mb Eq)).
  rewrite A in Hba.
  destruct (Pos.compare_cont Eq ma mb) eqn:C; cbn in Hab, Hba;
    try discriminate.
  change (Pos.compare ma mb = Eq) in C. apply Pos.compare_eq in C.
  now subst mb.
Qed.

(** A number above a non-negative one is non-negative. *)
Lemma sf_nonneg_above (x y : spec_float) :
  sf_nonneg x = true -> SFltb x y = true -> sf_nonneg y = true.
Proof.
  unfold SFltb.
  destruct x as [sx|sx| |sx mx ex], y as [sy|sy| |sy my ey];
    repeat match goal with s : bool |- _ => destruct s end;
    cbn; congruence.
Qed.

(** A non-negative number times a positive finite one is not below zero. *)
Lemma SFmul_not_negative (x : spec_float) (m : positive) (e : Z) :
  sf_nonneg x = true ->
  sf_negative (SF64mul x (S754_finite false m e)) = false.
Proof.
  unfold SF64mul, SFmul.
  destruct x as [sx|sx| |sx mx ex]; try destruct sx; cbn; try congruence.
  intros _. apply FloatFacts.binary_round_aux_not_negative.
Qed.

Lemma times_100_not_negative (x : number) :
  sf_nonneg (Prim2SF x) = true -> lt (x * 100) 0 = false.
Proof.
  intros H. rewrite FloatFacts.lt_zero_spec, mul_spec.
  remember (Prim2SF 100) as h eqn:E. vm_compute in E. subst h.
  now apply SFmul_not_negative.
Qed.

Lemma abs_times_100_not_negative (x : number) :
  lt (Math_abs x * 100) 0 = false.
Proof.
  rewrite FloatFacts.lt_zero_spec, mul_spec. unfold Math_abs.
  rewrite abs_spec.
  remember (Prim2SF 100) as h eqn:E. vm_compute in E. subst h.
  destruct (Prim2SF x) as [sx|sx| |sx mx ex]; cbn; try reflexivity.
  apply FloatFacts.binary_round_aux_not_negative.
Qed.

(** What is above 25 is below neither 25 nor 15. *)
Lemma above_25 (v : number) :
  lt 25 v = true -> lt v 25 = false /\ lt v 15 = false.
Proof.
  intros H. split; [now apply lt_asym|].
  revert H. unfold lt. rewrite !ltb_spec.
  remember (Prim2SF 25) as h25 eqn:E25. vm_compute in E25. subst h25.
  remember (Prim2SF 15) as h15 eqn:E15. vm_compute in E15. subst h15.
  destruct (Prim2SF v) as [s|s| |s m e];
    cbv beta iota delta [SFltb SFcompare]; try destruct s;
    try discriminate; try reflexivity.
  destruct (Z.compare_spec (-48) e) as [E|E|E]; try discriminate; intros _.
  - subst e. reflexivity.
  - assert (G : (e ?= -49) = Gt) by (apply Z.compare_gt_iff; lia).
    now rewrite G.
Qed.

(** [Math.max] and [Math.min] against one of their arguments. *)
Lemma Math_max_num_not_below (x y : number) :
  lt (Math_max_num x y) x = false.
Proof.
  unfold Math_max_num.
  destruct (isNaN x || isNaN y); [apply lt_NaN_l|].
  destruct (lt x y) eqn:E; [now apply lt_asym|].
  destruct (lt y x) eqn:F; [apply lt_irrefl|].
  destruct (PrimFloat.get_sign x); [assumption|apply lt_irrefl].
Qed.

Lemma Math_min_num_not_above (x y : number) :
  lt y (Math_min_num x y) = false.
Proof.
  unfold Math_min_num.
  destruct (isNaN x || isNaN y); [apply lt_NaN_r|].
  destruct (lt x y) eqn:E; [now apply lt_asym|].
  destruct (lt y x) eqn:F; [apply lt_irrefl|].
  destruct (PrimFloat.get_sign x); [assumption|apply lt_irrefl].
Qed.

End FloatOrder.

(** ** The RiskAnalysis component: signs, edge cases, consistency *)

Import FloatOrder.

(** X1.  calculateVaR never returns a number below zero, whatever the
    returns and the confidence level. *)
Theorem calculateVaR_not_negative :
  forall (returns : list number) (c : number),
    lt (calculateVaR returns c) 0 = false.
Proof.
  intros returns c. unfold calculateVaR.
  destruct (len returns =? 0); [reflexivity|].
  apply abs_times_100_not_negative.
Qed.

Lemma len_map_close (data : list Bar) : len (map close data) = len data.
Proof. unfold len. now rewrite length_map. Qed.

(** X2.  calculateMaxDrawdown never returns a number below zero. *)
Theorem calculateMaxDrawdown_not_negative :
  forall data : list Bar, lt (calculateMaxDrawdown data) 0 = false.
Proof.
  intros data. unfold calculateMaxDrawdown.
  destruct (len data <? 2) eqn:L; [reflexivity|].
  apply Z.ltb_ge in L.
  set (body := fun (i : Z) '(maxDrawdown, peak) => _).
  assert (Inv : sf_nonneg
                  (Prim2SF (fst (for_loop 1 (len data) body
                                   (0%float, close_at data 0)))) = true).
  { apply for_loop_inv
      with (P := fun (_ : Z) s => sf_nonneg (Prim2SF (fst s)) = true).
    - lia.
    - reflexivity.
    - intros i [m peak] _ H. cbn [fst] in *. unfold body. cbn [fst].
      match goal with
      | |- context [if gt ?d m then _ else _] =>
          destruct (gt d m) eqn:G; [|exact H];
          unfold gt in G; rewrite ltb_spec in G;
          exact (sf_nonneg_above _ _ H G)
      end. }
  destruct (for_loop 1 (len data) body (0%float, close_at data 0)) as [m peak].
  cbn [fst] in Inv. now apply times_100_not_negative.
Qed.

(** X3.  On a series of positive finite closes in which no close is below
    the one before it, calculateMaxDrawdown is exactly 0. *)
Theorem calculateMaxDrawdown_never_falling :
  forall data : list Bar,
    (forall i, 0 <= i < len data -> positive_finite (close_at data i)) ->
    (forall i, 1 <= i < len data ->
       lt (close_at data i) (close_at data (i - 1)) = false) ->
    calculateMaxDrawdown data = 0%float.
Proof.
  intros data Hpos Hup. unfold calculateMaxDrawdown.
  destruct (len data <? 2) eqn:L; [reflexivity|].
  apply Z.ltb_ge in L.
  set (body := fun (i : Z) '(maxDrawdown, peak) => _).
  assert (Inv : for_loop 1 (len data) body (0%float, close_at data 0)
                = (0%float, close_at data (len data - 1))).
  { apply for_loop_inv
      with (P := fun i s => s = (0%float, close_at data (i - 1))).
    - lia.
    - reflexivity.
    - intros i s Hi ->. unfold body.
      replace (i + 1 - 1) with i by lia.
      assert (P : (if gt (close_at data i) (close_at data (i - 1))
                   then close_at data i else close_at data (i - 1))
                  = close_at data i).
      { destruct (gt (close_at data i) (close_at data (i - 1))) eqn:G;
          [reflexivity|].
        symmetry. apply positive_finite_eq.
        - apply Hpos. lia.
        - apply Hpos. lia.
        - apply Hup. lia.
        - exact G. }
      rewrite P.
      destruct (Hpos i ltac:(lia)) as [P0 P1].
      rewrite (FloatFacts.self_difference_quotient P0 P1).
      reflexivity. }
  rewrite Inv. reflexivity.
Qed.

(** Witness of X3: four closes that never fall. *)
Lemma calculateMaxDrawdown_never_falling_witness :
  calculateMaxDrawdown
    (map (fun c => mkBar String.EmptyString c c) [10; 10; 12; 15]%float)
  = 0%float.
Proof.
  apply calculateMaxDrawdown_never_falling.
  - intros i Hi. change (0 <= i < 4) in Hi.
    assert (C : i = 0 \/ i = 1 \/ i = 2 \/ i = 3) by lia.
    destruct C as [C|[C|[C|C]]]; subst i; split; reflexivity.
  - intros i Hi. change (1 <= i < 4) in Hi.
    assert (C : i = 1 \/ i = 2 \/ i = 3) by lia.
    destruct C as [C|[C|C]]; subst i; reflexivity.
Defined.

Section RiskMetricsFacts.
Variable Math_pow : number -> number -> number.

Lemma calculateBeta_values (returns : list number) :
  calculateBeta Math_pow returns = 0.8%float
  \/ calculateBeta Math_pow returns = 1.0%float
  \/ calculateBeta Math_pow returns = 1.3%float.
Proof.
  unfold calculateBeta. destruct (len returns =? 0); [now right; left|].
  destruct (lt _ 15); [now left|].
  destruct (lt _ 25); [now right; left|now right; right].
Qed.

Lemma beta_distinct :
  1.0%float <> 0.8%float /\ 1.3%float <> 0.8%float /\ 1.3%float <> 1.0%float.
Proof.
  split; [|split]; intros H.
  - apply (f_equal (fun x => PrimFloat.eqb x 1.0)) in H. discriminate.
  - apply (f_equal (fun x => PrimFloat.eqb x 1.3)) in H. discriminate.
  - apply (f_equal (fun x => PrimFloat.eqb x 1.3)) in H. discriminate.
Qed.
End RiskMetricsFacts.

Lemma len_calculateReturns (data : list Bar) :
  len (calculateReturns data) = Z.max (len data - 1) 0.
Proof.
  rewrite calculateReturns_push. unfold len. rewrite length_push_loop. lia.
Qed.

(** X4.  calculateRiskMetrics sets the metrics exactly when the history has
    at least two bars.  The beta it reports is one of 0.8, 1.0 and 1.3,
    and agrees with the risk level: the level is low exactly when beta is
    0.8, a high level comes with beta 1.3, and beta 1.0 with a medium
    level. *)
Theorem calculateRiskMetrics_consistent :
  forall (Math_pow : number -> number -> number) (data : list Bar),
    (len data < 2 -> calculateRiskMetrics Math_pow data = None)
    /\ (2 <= len data ->
        exists m, calculateRiskMetrics Math_pow data = Some m
          /\ (beta m = 0.8%float \/ beta m = 1.0%float \/ beta m = 1.3%float)
          /\ (riskLevel m = low <-> beta m = 0.8%float)
          /\ (riskLevel m = high -> beta m = 1.3%float)
          /\ (beta m = 1.0%float -> riskLevel m = medium)).
Proof.
  intros Math_pow data. unfold calculateRiskMetrics.
  pose proof (len_calculateReturns data) as L.
  destruct (beta_distinct) as (D1 & D2 & D3).
  split; intros H.
  - destruct (Z.eqb_spec (len (calculateReturns data)) 0); [reflexivity|lia].
  - destruct (Z.eqb_spec (len (calculateReturns data)) 0) as [?|N]; [lia|].
    eexists. split; [reflexivity|].
    cbn [beta riskLevel]. split; [apply calculateBeta_values|].
    unfold calculateBeta.
    destruct (Z.eqb_spec (len (calculateReturns data)) 0) as [?|_]; [lia|].
    set (v := calculateVolatility Math_pow (calculateReturns data)).
    destruct (lt v 15) eqn:V15.
    + repeat split; try congruence.
    + destruct (gt v 25) eqn:V25.
      * destruct (above_25 V25) as [V _]. rewrite V.
        repeat split; congruence.
      * destruct (lt v 25); repeat split; congruence.
Qed.

(** Witness of X4: three bars. *)
Lemma calculateRiskMetrics_consistent_witness :
  let pow2 := fun x _ : number => (x * x)%float in
  let data := map (fun c => mkBar String.EmptyString c c) [10; 12; 9]%float in
  exists m, calculateRiskMetrics pow2 data = Some m
            /\ (riskLevel m = low <-> beta m = 0.8%float).
Proof.
  intros pow2 data.
  destruct (calculateRiskMetrics_consistent pow2 data) as [_ H].
  destruct H as (m & E & _ & B & _); [vm_compute; discriminate|].
  exists m. split; assumption.
Defined.

(** X5.  A history of exactly two bars has a single return, so whatever
    the size of the move the metrics report volatility 0, Sharpe ratio 0,
    beta 0.8 and a low risk level. *)
Theorem calculateRiskMetrics_two_bars :
  forall (Math_pow : number -> number -> number) (data : list Bar),
    len data = 2 ->
    exists m, calculateRiskMetrics Math_pow data = Some m
      /\ rm_volatility m = 0%float /\ sharpeRatio m = 0%float
      /\ beta m = 0.8%float /\ riskLevel m = low.
Proof.
  intros Math_pow data H. unfold calculateRiskMetrics.
  pose proof (len_calculateReturns data) as L. rewrite H in L.
  change (Z.max (2 - 1) 0) with 1 in L.
  rewrite L. change (1 =? 0) with false. cbv iota.
  eexists. split; [reflexivity|].
  assert (V : calculateVolatility Math_pow (calculateReturns data) = 0%float).
  { unfold calculateVolatility. now rewrite L. }
  cbn [rm_volatility sharpeRatio beta riskLevel].
  unfold calculateSharpeRatio, calculateBeta. rewrite V, L.
  repeat split.
Qed.

(** Witness of X5: a fall from 100 to 10. *)
Lemma calculateRiskMetrics_two_bars_witness :
  let pow2 := fun x _ : number => (x * x)%float in
  let data := map (fun c => mkBar String.EmptyString c c) [100; 10]%float in
  exists m, calculateRiskMetrics pow2 data = Some m /\ riskLevel m = low.
Proof.
  intros pow2 data.
  destruct (@calculateRiskMetrics_two_bars pow2 data eq_refl)
    as (m & E & _ & _ & _ & R).
  exists m. split; assumption.
Defined.

(** X6.  calculatePositionSizing returns null exactly when there are no
    metrics, and the position it recommends is never above the position
    size entered. *)
Theorem calculatePositionSizing_capped :
  forall (tol : RiskTolerance) (portfolioValue currentPrice positionSize : number),
    calculatePositionSizing None tol portfolioValue currentPrice positionSize
    = None
    /\ forall m : RiskMetrics,
         exists r,
           calculatePositionSizing (Some m) tol portfolioValue currentPrice
             positionSize = Some r
           /\ lt positionSize (recommendedPosition r) = false.
Proof.
  intros tol pv price ps. split; [reflexivity|].
  intros m. eexists. split; [reflexivity|].
  cbn [recommendedPosition]. apply Math_min_num_not_above.
Qed.

Lemma SFcompare_refl (x : spec_float) :
  x <> S754_nan -> SFcompare x x = Some Eq.
Proof.
  destruct x as [s|s| |s m e]; try destruct s; cbn; try congruence;
    intros _; rewrite Z.compare_refl, Pos.compare_cont_refl; reflexivity.
Qed.

Lemma lt_not_NaN (a b : number) : lt a b = true -> isNaN a = false.
Proof.
  unfold lt, isNaN, is_nan. rewrite ltb_spec, eqb_spec. intros H.
  unfold SFeqb. rewrite SFcompare_refl; [reflexivity|].
  intros E. rewrite E in H. discriminate.
Qed.

Lemma positive_finite_times_0 (p : number) :
  positive_finite p -> (p * 0)%float = 0%float.
Proof.
  unfold positive_finite, lt. rewrite !ltb_spec. intros [H0 H1].
  apply Prim2SF_inj. rewrite mul_spec.
  change (Prim2SF 0) with (S754_zero false) in *.
  destruct (Prim2SF p) as [s|s| |s m e]; try discriminate;
    destruct s; try discriminate; reflexivity.
Qed.

Lemma infinity_times_positive_finite (p : number) :
  positive_finite p -> (infinity * p)%float = infinity.
Proof.
  unfold positive_finite, lt. rewrite !ltb_spec. intros [H0 H1].
  apply Prim2SF_inj. rewrite mul_spec.
  change (Prim2SF 0) with (S754_zero false) in *.
  change (Prim2SF infinity) with (S754_infinity false) in *.
  destruct (Prim2SF p) as [s|s| |s m e]; try discriminate;
    destruct s; try discriminate; reflexivity.
Qed.

(** X7.  With the default portfolio value 10000, a value at risk of 0 and
    a positive finite price, the stop-loss distance is 0 and the share
    count divides by it: maxShares is Infinity, and the recommended
    position is the whole position size entered. *)
Theorem calculatePositionSizing_zero_VaR :
  forall (m : RiskMetrics) (tol : RiskTolerance)
         (currentPrice positionSize : number),
    var95 m = 0%float ->
    positive_finite currentPrice ->
    lt positionSize infinity = true ->
    exists r,
      calculatePositionSizing (Some m) tol 10000 currentPrice positionSize
      = Some r
      /\ maxShares r = infinity
      /\ recommendedPosition r = positionSize.
Proof.
  intros m tol price ps Hv Hp Hps. unfold calculatePositionSizing.
  eexists. split; [reflexivity|]. cbn [maxShares recommendedPosition].
  rewrite Hv. change (0 / 100)%float with 0%float.
  rewrite (positive_finite_times_0 Hp).
  assert (S : Math_floor
                (10000 * match tol with
                         | conservative => 0.01
                         | moderate => 0.02
                         | aggressive => 0.05
                         end / 0)%float = infinity)
    by (destruct tol; vm_compute; reflexivity).
  rewrite S. split; [reflexivity|].
  rewrite (infinity_times_positive_finite Hp).
  unfold Math_min_num. rewrite (lt_not_NaN Hps).
  change (isNaN infinity) with false. cbn [orb].
  rewrite (lt_asym Hps), Hps. reflexivity.
Qed.

(** Witness of X7: price 50, position size 1000. *)
Lemma calculatePositionSizing_zero_VaR_witness :
  let m := mkRiskMetrics 0 0 0 0 0 0.8 low in
  exists r,
    calculatePositionSizing (Some m) moderate 10000 50 1000 = Some r
    /\ maxShares r = infinity.
Proof.
  intros m.
  destruct (@calculatePositionSizing_zero_VaR m moderate 50 1000)
    as (r & E & S & _);
    [reflexivity | split; reflexivity | reflexivity |].
  exists r. split; assumption.
Defined.

(** ** TechnicalIndicators.tsx: warm-up and stability under new prices *)

(** X8.  calculateRSI is NaN at every index below [2p - 1]: below [p] by
    its own test, and from [p] to [2p - 2] because it reads the warm-up of
    the smoothed gains and losses. *)
Theorem calculateRSI_undefined_below :
  forall (prices : list number) (p i : Z),
    0 <= i < len prices -> i < 2 * p - 1 ->
    lookup (calculateRSI prices p) i = Some NaN.
Proof.
  intros prices p i Hi Hp.
  destruct (Z.lt_ge_cases i p) as [L|G].
  - now apply calculateRSI_warmup.
  - apply calculateRSI_gap; lia.
Qed.

(** Witness of X8: index 20 of thirty prices at the default period. *)
Lemma calculateRSI_undefined_below_witness :
  lookup (calculateRSI_default (map close sample_bars)) 20 = Some NaN.
Proof.
  apply calculateRSI_undefined_below; [vm_compute; split; congruence | lia].
Defined.

Lemma filter_prefix_le {A} (f : A -> bool) (l : list A) (n : nat) (d : A) :
  (forall j, (j < n)%nat -> (j < length l)%nat -> f (nth j l d) = false) ->
  (length (filter f l) + Nat.min n (length l) <= length l)%nat.
Proof.
  revert n. induction l as [|a l IH]; intros n H; [simpl; lia|].
  destruct n as [|n].
  - pose proof (filter_length_le f (a :: l)). simpl in *. lia.
  - assert (F : f a = false) by (apply (H 0%nat); simpl; lia).
    simpl. rewrite F.
    assert (G : forall j, (j < n)%nat -> (j < length l)%nat ->
                  f (nth j l d) = false).
    { intros j Hj Hl. apply (H (S j)); simpl; lia. }
    specialize (IH n G). lia.
Qed.

Lemma macd_warmup (prices : list number) (i : Z) :
  0 <= i < len prices -> i < 25 ->
  lookup (macd (calculateMACD prices)) i = Some NaN.
Proof.
  intros Hi H25. rewrite macd_entries by assumption.
  assert (E : get (calculateEMA prices 26) i = NaN).
  { rewrite calculateEMA_push, get_push_loop by lia. unfold ema_entry.
    destruct (Z.ltb_spec i (26 - 1)) as [_|?]; [reflexivity|lia]. }
  rewrite E. change (isNaN NaN) with true. now rewrite orb_true_r.
Qed.

Lemma signal_shape (prices : list number) :
  let m := calculateMACD prices in
  signal m
  = repeat NaN (length (macd m) - length (filter defined (macd m)))
    ++ calculateEMA (filter defined (macd m)) 9.
Proof.
  cbn [calculateMACD macd signal].
  change (fun val : number => negb (isNaN val)) with defined.
  f_equal. unfold Array_fill. f_equal. rewrite len_calculateEMA.
  unfold len. lia.
Qed.

(** X9.  For every price list the MACD line is NaN at its first 25
    indices and the signal line at its first 33: the signal needs eight
    further defined MACD entries before its first value. *)
Theorem calculateMACD_warmup :
  forall (prices : list number) (i : Z),
    0 <= i < len prices ->
    (i < 25 -> lookup (macd (calculateMACD prices)) i = Some NaN)
    /\ (i < 33 -> lookup (signal (calculateMACD prices)) i = Some NaN).
Proof.
  intros prices i Hi. split; [now apply macd_warmup|].
  intros H33.
  pose proof (len_macd prices) as Lm. pose proof (len_signal prices) as Ls.
  rewrite lookup_some_get by lia. f_equal.
  rewrite signal_shape.
  set (mc := macd (calculateMACD prices)) in *.
  set (valid := filter defined mc).
  assert (K : (length valid + Nat.min 25 (length mc) <= length mc)%nat).
  { apply filter_prefix_le with (d := NaN). intros j Hj Hl.
    assert (E : lookup mc (Z.of_nat j) = Some NaN)
      by (apply macd_warmup; unfold len in *; lia).
    apply lookup_get in E. unfold get in E.
    destruct (Z.ltb_spec (Z.of_nat j) 0) as [?|_]; [lia|].
    rewrite Nat2Z.id in E. now rewrite E. }
  unfold get. destruct (Z.ltb_spec i 0) as [?|_]; [lia|].
  unfold len in Lm, Hi.
  destruct (Nat.lt_ge_cases (Z.to_nat i) (length mc - length valid))
    as [Lt|Ge].
  - rewrite app_nth1 by (rewrite repeat_length; exact Lt).
    apply nth_repeat.
  - rewrite app_nth2 by (rewrite repeat_length; exact Ge).
    rewrite repeat_length.
    set (j := (Z.to_nat i - (length mc - length valid))%nat).
    assert (Hj : (j < 8)%nat) by (unfold j; lia).
    assert (Hl : (j < length valid)%nat) by (unfold j; lia).
    pose proof (@get_push_loop (ema_entry valid 9) (Z.of_nat j) (len valid))
      as G.
    rewrite <- calculateEMA_push in G. unfold get in G at 1.
    destruct (Z.ltb_spec (Z.of_nat j) 0) as [?|_]; [lia|].
    rewrite Nat2Z.id in G. rewrite G by (unfold len; lia).
    unfold ema_entry.
    destruct (Z.ltb_spec (Z.of_nat j) (9 - 1)) as [_|?]; [reflexivity|lia].
Qed.

(** Witness of X9: index 30 of thirty-five prices. *)
Lemma calculateMACD_warmup_witness :
  lookup (signal (calculateMACD prices_missing_last)) 30 = Some NaN.
Proof.
  destruct (@calculateMACD_warmup prices_missing_last 30) as [_ H];
    [vm_compute; split; congruence|].
  apply H. lia.
Defined.

Lemma get_app_l (a b : list number) (i : Z) :
  i < len a -> get (a ++ b) i = get a i.
Proof.
  intros H. unfold get, len in *.
  destruct (Z.ltb_spec i 0) as [?|?]; [reflexivity|].
  apply app_nth1. lia.
Qed.

Lemma slice_app_l {A} (a b : list A) (start stop : Z) :
  0 <= start -> 0 <= stop <= len a ->
  slice (a ++ b) start stop = slice a start stop.
Proof.
  intros Hs Ht. unfold slice, rel_index. rewrite len_app.
  pose proof (len_nonneg b) as Hb.
  destruct (Z.ltb_spec start 0) as [?|_]; [lia|].
  destruct (Z.ltb_spec stop 0) as [?|_]; [lia|].
  rewrite !(Z.min_l stop) by lia.
  destruct (Z.le_gt_cases start (len a)) as [L|G].
  - rewrite !(Z.min_l start) by lia.
    rewrite skipn_app, firstn_app.
    replace (Z.to_nat (stop - start) - length (skipn (Z.to_nat start) a))%nat
      with 0%nat by (rewrite length_skipn; unfold len in *; lia).
    replace (Z.to_nat start - length a)%nat with 0%nat
      by (unfold len in *; lia).
    simpl. apply app_nil_r.
  - rewrite (Z.min_r start (len a)) by lia.
    replace (Z.to_nat (stop - len a)) with 0%nat by lia.
    replace (Z.to_nat (stop - Z.min start (len a + len b))) with 0%nat by lia.
    reflexivity.
Qed.

Lemma ema_prefix_stable (prices more : list number) (p n : Z) :
  0 <= n <= len prices ->
  push_loop (ema_entry (prices ++ more) p) n
  = push_loop (ema_entry prices p) n.
Proof.
  intros [H0 Hn].
  replace n with (0 + Z.of_nat (Z.to_nat n)) by lia.
  assert (B : (Z.to_nat n <= length prices)%nat) by (unfold len in Hn; lia).
  induction (Z.to_nat n) as [|k IH]; [reflexivity|].
  replace (0 + Z.of_nat (S k)) with (0 + Z.of_nat k + 1) by lia.
  rewrite !push_loop_succ by lia. rewrite IH by lia. f_equal. f_equal.
  set (i := 0 + Z.of_nat k). set (acc := push_loop (ema_entry prices p) i).
  assert (Hi : 0 <= i < len prices) by (unfold i, len; lia).
  unfold ema_entry.
  destruct (i <? p - 1); [reflexivity|].
  destruct (Z.eqb_spec i (p - 1)) as [E|_].
  - rewrite !initial_sum_total by (rewrite ?len_app; pose proof (len_nonneg more); lia).
    unfold Math_min. rewrite len_app, !Z.min_l
      by (pose proof (len_nonneg more); lia).
    rewrite firstn_app.
    replace (Z.to_nat p - length prices)%nat with 0%nat
      by (unfold len in *; lia).
    simpl. now rewrite app_nil_r.
  - now rewrite get_app_l by lia.
Qed.

(** X10.  New prices never change what is already drawn: appending prices
    to a list leaves every entry of calculateEMA and of calculateSMA at an
    index of the original list as it was. *)
Theorem moving_averages_stable :
  forall (prices more : list number) (p i : Z),
    0 <= i < len prices ->
    lookup (calculateEMA (prices ++ more) p) i
    = lookup (calculateEMA prices p) i
    /\ lookup (calculateSMA (prices ++ more) p) i
       = lookup (calculateSMA prices p) i.
Proof.
  intros prices more p i Hi. pose proof (len_nonneg more) as Hm. split.
  - rewrite !calculateEMA_push, !lookup_push_loop by (rewrite ?len_app; lia).
    rewrite ema_prefix_stable by lia. f_equal.
    set (acc := push_loop (ema_entry prices p) i).
    unfold ema_entry.
    destruct (i <? p - 1); [reflexivity|].
    destruct (Z.eqb_spec i (p - 1)) as [E|_].
    + rewrite !initial_sum_total by (rewrite ?len_app; lia).
      unfold Math_min. rewrite len_app, !Z.min_l by lia.
      rewrite firstn_app.
      replace (Z.to_nat p - length prices)%nat with 0%nat
        by (unfold len in *; lia).
      simpl. now rewrite app_nil_r.
    + now rewrite get_app_l by lia.
  - rewrite !calculateSMA_push, !lookup_push_loop by (rewrite ?len_app; lia).
    f_equal. unfold sma_entry.
    destruct (Z.ltb_spec i (p - 1)) as [?|G]; [reflexivity|].
    now rewrite slice_app_l by lia.
Qed.

(** Witness of X10: index 3 of four prices, two more appended, period 3. *)
Lemma moving_averages_stable_witness :
  lookup (calculateEMA ([10; 11; 13; 12] ++ [20; 30])%float 3) 3
  = lookup (calculateEMA [10; 11; 13; 12]%float 3) 3.
Proof.
  apply (@moving_averages_stable [10; 11; 13; 12]%float [20; 30]%float 3 3).
  vm_compute. split; congruence.
Defined.


(** ** App.tsx: the RSI column of the stored history *)

Lemma lookup_app_l {A} (a b : list A) (i : Z) :
  i < len a -> lookup (a ++ b) i = lookup a i.
Proof.
  intros H. unfold lookup, len in *.
  destruct (Z.ltb_spec i 0) as [?|?]; [reflexivity|].
  apply nth_error_app1. lia.
Qed.

Lemma lookup_push_last {A} (a : list A) (x : A) :
  lookup (push a x) (len a) = Some x.
Proof.
  unfold lookup, push, len.
  destruct (Z.ltb_spec (Z.of_nat (length a)) 0) as [?|_]; [lia|].
  rewrite Nat2Z.id, nth_error_app2, Nat.sub_diag by lia. reflexivity.
Qed.

Lemma len_push {A} (a : list A) (x : A) : len (push a x) = len a + 1.
Proof. unfold push. rewrite len_app. reflexivity. Qed.

Lemma app_rsi_shape_push (period : Z) (rsi : list (option number))
    (x : option number) :
  app_rsi_shape period rsi ->
  (len rsi + 1 < period -> x = None) ->
  (period <= len rsi + 1 -> exists v, x = Some v) ->
  app_rsi_shape period (push rsi x).
Proof.
  intros IH Hn Hs j Hj. rewrite len_push in Hj.
  destruct (Z.eq_dec j (len rsi)) as [->|N].
  - rewrite lookup_push_last. split.
    + intros L. now rewrite (Hn L).
    + intros G. destruct (Hs G) as [v ->]. now exists v.
  - unfold push. rewrite lookup_app_l by lia. apply IH. lia.
Qed.

Lemma App_calculateRSI_shape (data : list Bar) (period : Z) :
  len (App.calculateRSI data period) = Z.max (len data - 1) 0
  /\ app_rsi_shape period (App.calculateRSI data period).
Proof.
  unfold App.calculateRSI.
  set (body := fun (i : Z) '(rsi, gains, losses) => _).
  destruct (Z.le_gt_cases 1 (len data)) as [H|H].
  - assert (Inv : let s := for_loop 1 (len data) body
                             ([], 0%float, 0%float) in
                  len (fst (fst s)) = len data - 1
                  /\ app_rsi_shape period (fst (fst s))).
    { apply for_loop_inv
        with (P := fun i s => len (fst (fst s)) = i - 1
                              /\ app_rsi_shape period (fst (fst s))).
      - exact H.
      - split; [reflexivity|]. intros j Hj. unfold len in Hj. simpl in Hj. lia.
      - intros i [[rsi gains] losses] Hi [Hl Hs]. cbn [fst] in *.
        unfold body.
        destruct (Z.ltb_spec i period) as [L|G].
        + destruct (gt _ 0); cbn [fst]; rewrite len_push;
            (split; [lia|]);
            (apply app_rsi_shape_push;
             [assumption | reflexivity | intros; lia]).
        + destruct (Z.eqb_spec i period) as [E|N].
          * destruct (gt _ 0); cbn [fst]; rewrite len_push;
              (split; [lia|]);
              (apply app_rsi_shape_push;
               [assumption | intros; lia | intros; eexists; reflexivity]).
          * cbn [fst]. rewrite len_push. split; [lia|].
            apply app_rsi_shape_push;
              [assumption | intros; lia | intros; eexists; reflexivity]. }
    destruct (for_loop 1 (len data) body ([], 0%float, 0%float))
      as [[rsi gains] losses].
    cbn [fst] in Inv. destruct Inv as [Hl Hs]. split; [lia|exact Hs].
  - rewrite for_loop_empty by lia. split.
    + unfold len in *. simpl. lia.
    + intros j Hj. unfold len in Hj. simpl in Hj. lia.
Qed.

(** X11.  In the rows fetchHistory stores, each bar keeps its place, and
    its rsi field is null in the first 13 rows and in the last row, and a
    number in every row between: the array of calculateRSI is one entry
    short, so the value computed at bar [i + 1] is stored with bar [i]. *)
Theorem rsiHistory_rows :
  forall (data : list Bar) (i : Z),
    0 <= i < len data ->
    exists b r,
      lookup data i = Some b
      /\ lookup (App.rsiHistory data) i = Some (b, r)
      /\ r = or_null (lookup (App.calculateRSI_default data) i)
      /\ (r = None <-> i < 13 \/ i = len data - 1).
Proof.
  intros data i Hi. unfold App.rsiHistory.
  destruct (lookup data i) as [b|] eqn:E;
    [|exfalso; revert E; now apply lookup_in_range].
  exists b, (or_null (lookup (App.calculateRSI_default data) i)).
  split; [reflexivity|]. split; [now rewrite lookup_mapi, E|].
  split; [reflexivity|].
  unfold App.calculateRSI_default.
  destruct (App_calculateRSI_shape data 14) as [Hl Hs].
  destruct (Z.eq_dec i (len data - 1)) as [->|N].
  - assert (O : lookup (App.calculateRSI data 14) (len data - 1) = None).
    { unfold lookup. destruct (len data - 1 <? 0); [reflexivity|].
      apply nth_error_None. unfold len in *. lia. }
    rewrite O. split; [now right|reflexivity].
  - destruct (Hs i ltac:(lia)) as [Hn Hv].
    destruct (Z.lt_ge_cases (i + 1) 14) as [L|G].
    + rewrite (Hn L). split; [left; lia|reflexivity].
    + destruct (Hv G) as [x ->]. cbn. split; [discriminate|lia].
Qed.

(** Witness of X11: row 20 of thirty bars. *)
Lemma rsiHistory_rows_witness :
  exists b r, lookup (App.rsiHistory sample_bars) 20 = Some (b, r)
              /\ r <> None.
Proof.
  destruct (@rsiHistory_rows sample_bars 20) as (b & r & _ & E & _ & N);
    [vm_compute; split; congruence|].
  exists b, r. split; [exact E|].
  intros R. apply N in R. vm_compute in R. destruct R as [R|R]; discriminate.
Defined.

(** ** AIInsights.tsx: momentum, patterns and insights *)

Lemma get_app_r (a b : list number) (j : Z) :
  0 <= j -> get (a ++ b) (len a + j) = get b j.
Proof.
  intros H. unfold get, len.
  destruct (Z.ltb_spec (Z.of_nat (length a) + j) 0) as [?|_]; [lia|].
  destruct (Z.ltb_spec j 0) as [?|_]; [lia|].
  rewrite app_nth2 by lia. f_equal. lia.
Qed.

(** X12.  calculateMomentum is 0 on fewer than 20 bars, and otherwise
    depends on the last 20 bars only: bars before them do not change it. *)
Theorem calculateMomentum_last_20 :
  (forall data : list Bar,
      len data < 20 -> AIInsights.calculateMomentum data = 0%float)
  /\ (forall old recent : list Bar,
        len recent = 20 ->
        AIInsights.calculateMomentum (old ++ recent)
        = AIInsights.calculateMomentum recent).
Proof.
  split.
  - intros data H. unfold AIInsights.calculateMomentum.
    destruct (Z.ltb_spec (len data) 20) as [_|?]; [reflexivity|lia].
  - intros old recent H. unfold AIInsights.calculateMomentum, close_at.
    rewrite len_app, H, map_app.
    pose proof (len_nonneg old) as Ho.
    destruct (Z.ltb_spec (len old + 20) 20) as [?|_]; [lia|].
    change (20 <? 20) with false. cbv iota.
    replace (len old + 20 - 1) with (len (map close old) + 19)
      by (rewrite len_map_close; lia).
    replace (len old + 20 - 20) with (len (map close old) + 0)
      by (rewrite len_map_close; lia).
    rewrite !get_app_r by lia. reflexivity.
Qed.

(** Witness of X12: twenty bars after ten older ones. *)
Lemma calculateMomentum_last_20_witness :
  AIInsights.calculateMomentum (firstn 10 sample_bars ++ skipn 10 sample_bars)
  = AIInsights.calculateMomentum (skipn 10 sample_bars).
Proof.
  destruct calculateMomentum_last_20 as [_ H]. apply H. reflexivity.
Defined.

Lemma slice_last {A} (a b : list A) (n : Z) :
  len b = n -> 0 < n -> slice (a ++ b) (- n) (len (a ++ b)) = b.
Proof.
  intros H Hn. unfold slice, rel_index. rewrite len_app, H.
  pose proof (len_nonneg a) as Ha.
  destruct (Z.ltb_spec (- n) 0) as [_|?]; [|lia].
  destruct (Z.ltb_spec (len a + n) 0) as [?|_]; [lia|].
  rewrite Z.min_id.
  replace (Z.max (len a + n + - n) 0) with (len a) by lia.
  replace (len a + n - len a) with n by lia.
  rewrite skipn_app. unfold len at 1. rewrite Nat2Z.id, skipn_all.
  unfold len. rewrite Nat2Z.id, Nat.sub_diag. simpl.
  apply firstn_all2. unfold len in H. lia.
Qed.

Lemma slice_whole_last {A} (b : list A) (n : Z) :
  len b = n -> 0 < n -> slice b (- n) (len b) = b.
Proof. intros H Hn. exact (@slice_last A [] b n H Hn). Qed.

(** X13.  detectPatterns reports nothing on fewer than 10 bars, and
    otherwise depends on the last 10 bars only. *)
Theorem detectPatterns_last_10 :
  (forall data : list Quote,
      len data < 10 -> AIInsights.detectPatterns data = [])
  /\ (forall old recent : list Quote,
        len recent = 10 ->
        AIInsights.detectPatterns (old ++ recent)
        = AIInsights.detectPatterns recent).
Proof.
  split.
  - intros data H. unfold AIInsights.detectPatterns.
    destruct (Z.ltb_spec (len data) 10) as [_|?]; [reflexivity|lia].
  - intros old recent H. unfold AIInsights.detectPatterns.
    pose proof (len_nonneg old) as Ho.
    pose proof (@slice_last _ old recent 10 H ltac:(lia)) as S1.
    pose proof (@slice_whole_last _ recent 10 H ltac:(lia)) as S2.
    change (- (10)) with (-10) in S1, S2. rewrite S1, S2.
    rewrite len_app, H.
    destruct (Z.ltb_spec (len old + 10) 10) as [?|_]; [lia|].
    reflexivity.
Qed.

(** Witness of X13: ten quotes after three older ones. *)
Lemma detectPatterns_last_10_witness :
  let quotes := map (fun b => mkQuote b 1000) sample_bars in
  AIInsights.detectPatterns (firstn 3 quotes ++ firstn 10 (skipn 3 quotes))
  = AIInsights.detectPatterns (firstn 10 (skipn 3 quotes)).
Proof.
  intros quotes. destruct detectPatterns_last_10 as [_ H].
  apply H. reflexivity.
Defined.

Ltac split_patterns :=
  unfold AIInsights.detectPatterns;
  repeat match goal with
         | |- context [if ?c then _ else _] =>
             let E := fresh "E" in destruct c eqn:E
         end.

Lemma detectPatterns_length (data : list Quote) :
  (length (AIInsights.detectPatterns data) <= 5)%nat.
Proof. split_patterns; cbn; lia. Qed.

(** X14.  Whatever the quotes, detectPatterns returns at most five names,
    each at most once and each from its fixed list, and never both
    Uptrend and Downtrend. *)
Theorem detectPatterns_well_formed :
  forall data : list Quote,
    let patterns := AIInsights.detectPatterns data in
    (length patterns <= 5)%nat
    /\ NoDup patterns
    /\ incl patterns pattern_names
    /\ ~ (In "Uptrend"%string patterns /\ In "Downtrend"%string patterns).
Proof.
  intros data patterns. subst patterns.
  split; [apply detectPatterns_length|].
  split_patterns; cbn;
    (split; [repeat constructor; cbn; intuition discriminate|]);
    (split; [intros x Hx; cbn in Hx |- *; intuition (subst; auto 10)|]);
    intros [U D]; cbn in U, D; intuition discriminate.
Qed.

Section InsightFacts.
Variable Math_log : number -> number.
Variable toFixed : number -> Z -> String.string.

Local Open Scope string_scope.

Lemma pattern_step_keeps (pattern : String.string)
    (s : list AIInsights.Insight * Z * Z) :
  Forall confidence_in_range (fst (fst s)) ->
  Forall confidence_in_range (fst (fst (AIInsights.pattern_step pattern s)))
  /\ length (fst (fst (AIInsights.pattern_step pattern s)))
     = S (length (fst (fst s))).
Proof.
  destruct s as [[ins b] r]. cbn [fst]. intros H.
  unfold AIInsights.pattern_step.
  destruct (includes pattern "Uptrend" || includes pattern "Breakout");
    [|destruct (includes pattern "Downtrend");
      [|destruct (includes pattern "High Volume")]];
    cbn [fst]; unfold push;
    (split; [apply Forall_app; split; [assumption|];
             repeat constructor; unfold confidence_in_range; cbn; lia
            |rewrite length_app; cbn; lia]).
Qed.

Lemma pattern_fold_keeps (patterns : list String.string)
    (s : list AIInsights.Insight * Z * Z) :
  Forall confidence_in_range (fst (fst s)) ->
  Forall confidence_in_range
    (fst (fst (fold_left (fun s p => AIInsights.pattern_step p s) patterns s)))
  /\ length (fst (fst (fold_left (fun s p => AIInsights.pattern_step p s)
                         patterns s)))
     = (length (fst (fst s)) + length patterns)%nat.
Proof.
  revert s. induction patterns as [|p ps IH]; intros s H;
    cbn [fold_left length].
  - split; [assumption|lia].
  - destruct (pattern_step_keeps p s H) as [F L].
    destruct (IH _ F) as [F' L']. split; [exact F'|].
    rewrite L', L. lia.
Qed.

Ltac insight_ok :=
  unfold push;
  repeat (apply Forall_app; split);
  try assumption;
  repeat constructor; unfold confidence_in_range; cbn; lia.

Ltac insight_count :=
  unfold push in *; rewrite ?length_app in *; cbn [length] in *; lia.

(** X15.  Whatever the history, the price and the predictions,
    generateInsights produces at most nine insights, and the confidence
    of every one of them lies between 65 and 90. *)
Theorem generateInsights_bounded :
  forall (data : list Quote) (currentPrice : number)
         (preds : option Predictions),
    let st := AIInsights.generateInsights Math_log toFixed data currentPrice
                preds in
    (length (AIInsights.st_insights st) <= 9)%nat
    /\ Forall confidence_in_range (AIInsights.st_insights st).
Proof.
  intros data price preds. unfold AIInsights.generateInsights.
  set (bars := map quote_bar data).
  set (vol := AIInsights.calculateVolatility Math_log bars).
  set (mom := AIInsights.calculateMomentum bars).
  set (rsi := AIInsights.calculateRSI_default bars).
  pose proof (detectPatterns_length data) as PL.
  set (patterns := AIInsights.detectPatterns data) in *.
  destruct (gt rsi 70); [|destruct (lt rsi 30); [|destruct (gt rsi 50)]];
    (destruct (gt mom 5); [|destruct (lt mom (-5))]);
    (destruct (gt vol 30); [|destruct (lt vol 10)]);
    cbv beta iota zeta;
    match goal with
    | |- context [fold_left ?f patterns ?s0] =>
        destruct (pattern_fold_keeps patterns s0 ltac:(cbn [fst]; insight_ok))
          as [F L];
        destruct (fold_left f patterns s0) as [[ins b] r]
    end;
    cbn [fst] in F, L;
    (destruct preds as [[[ps|] ds lp]|];
     [destruct (gt _ 2); [|destruct (lt _ _)]| |]);
    cbn [AIInsights.st_insights];
    (split; [insight_count|insight_ok]).
Qed.

(** X16.  On fewer than 10 bars and without predictions the sentiment is
    neutral and the momentum 0, and the only insight there can be is the
    one about volatility. *)
Theorem generateInsights_short_history :
  forall (data : list Quote) (currentPrice : number),
    len data < 10 ->
    let st := AIInsights.generateInsights Math_log toFixed data currentPrice
                None in
    AIInsights.st_sentiment st = AIInsights.neutral
    /\ AIInsights.st_momentum st = 0%float
    /\ (length (AIInsights.st_insights st) <= 1)%nat
    /\ Forall about_volatility (AIInsights.st_insights st).
Proof.
  intros data price H. unfold AIInsights.generateInsights.
  assert (Lb : len (map quote_bar data) = len data)
    by (unfold len; now rewrite length_map).
  assert (R : AIInsights.calculateRSI_default (map quote_bar data) = 50%float).
  { unfold AIInsights.calculateRSI_default, AIInsights.calculateRSI.
    rewrite Lb.
    destruct (Z.ltb_spec (len data) (14 + 1)) as [_|?]; [reflexivity|lia]. }
  assert (M : AIInsights.calculateMomentum (map quote_bar data) = 0%float).
  { unfold AIInsights.calculateMomentum. rewrite Lb.
    destruct (Z.ltb_spec (len data) 20) as [_|?]; [reflexivity|lia]. }
  assert (P : AIInsights.detectPatterns data = []).
  { unfold AIInsights.detectPatterns.
    destruct (Z.ltb_spec (len data) 10) as [_|?]; [reflexivity|lia]. }
  rewrite R, M, P.
  set (vol := AIInsights.calculateVolatility Math_log (map quote_bar data)).
  clearbody vol.
  destruct (gt vol 30); [|destruct (lt vol 10)]; cbn;
    (split; [reflexivity|]); (split; [reflexivity|]); (split; [lia|]);
    repeat first [apply Forall_nil | apply Forall_cons];
    unfold about_volatility; cbn; auto.
Qed.

End InsightFacts.

(** Witness of X16: three quotes, with stand-ins for the two built-ins. *)
Lemma generateInsights_short_history_witness :
  let quotes := map (fun b => mkQuote b 1000) (firstn 3 sample_bars) in
  AIInsights.st_sentiment
    (AIInsights.generateInsights (fun x => x) (fun _ _ => String.EmptyString)
       quotes 100 None)
  = AIInsights.neutral.
Proof.
  intros quotes.
  destruct (@generateInsights_short_history (fun x => x)
              (fun _ _ => String.EmptyString) quotes 100) as [S _];
    [vm_compute; reflexivity | exact S].
Defined.

(** ** Volatility is never negative *)

Lemma SFsqrt_not_negative (x : spec_float) :
  sf_negative (SF64sqrt x) = false.
Proof.
  unfold SF64sqrt, SFsqrt.
  destruct x as [s|s| |s m e]; try destruct s; try reflexivity.
  destruct (SFsqrt_core_binary prec emax (Z.pos m) e) as [[mz ez] lz].
  apply FloatFacts.binary_round_aux_not_negative.
Qed.

Lemma SFmul_keeps_not_negative (x : spec_float) (m : positive) (e : Z) :
  sf_negative x = false ->
  sf_negative (SF64mul x (S754_finite false m e)) = false.
Proof.
  unfold SF64mul, SFmul.
  destruct x as [sx|sx| |sx mx ex]; try destruct sx; cbn; try congruence;
    try reflexivity.
  intros _. apply FloatFacts.binary_round_aux_not_negative.
Qed.

Lemma sqrt_times_100_not_negative (x : number) :
  lt (Math_sqrt x * 100) 0 = false.
Proof.
  rewrite FloatFacts.lt_zero_spec, mul_spec. unfold Math_sqrt.
  rewrite sqrt_spec.
  remember (Prim2SF 100) as h eqn:E. vm_compute in E. subst h.
  apply SFmul_keeps_not_negative, SFsqrt_not_negative.
Qed.

(** X17.  Neither calculateVolatility returns a number below zero:
    that of the RiskAnalysis component for every list of returns and
    whatever Math.pow computes, that of AIInsights.tsx for every history
    and whatever Math.log computes. *)
Theorem volatility_not_negative :
  (forall (Math_pow : number -> number -> number) (returns : list number),
      lt (RiskAnalysis.calculateVolatility Math_pow returns) 0 = false)
  /\ (forall (Math_log : number -> number) (data : list Bar),
        lt (AIInsights.calculateVolatility Math_log data) 0 = false).
Proof.
  split.
  - intros Math_pow returns. unfold RiskAnalysis.calculateVolatility.
    destruct (len returns <? 2); [reflexivity|].
    apply sqrt_times_100_not_negative.
  - intros Math_log data. unfold AIInsights.calculateVolatility.
    destruct (len data <? 2); [reflexivity|].
    unfold AIInsights.smoothed_volatility.
    rewrite FloatFacts.lt_zero_spec, !mul_spec. unfold Math_sqrt.
    rewrite (sqrt_spec 252).
    remember (Prim2SF 100) as h eqn:E. vm_compute in E. subst h.
    remember (SF64sqrt (Prim2SF 252)) as r eqn:E. vm_compute in E. subst r.
    apply SFmul_keeps_not_negative, SFmul_keeps_not_negative.
    rewrite sqrt_spec. apply SFsqrt_not_negative.
Qed.

(** ** PredictionChart.tsx *)

(** X18.  calculateAccuracy is null on an empty history and without
    predictions, and a number it returns is never below zero. *)
Theorem calculateAccuracy_not_negative :
  (forall p, PredictionChart.calculateAccuracy [] p = None)
  /\ (forall h, PredictionChart.calculateAccuracy h None = None)
  /\ (forall h p a,
        PredictionChart.calculateAccuracy h p = Some a -> lt a 0 = false).
Proof.
  split; [|split].
  - intros [p|]; [|reflexivity]. unfold PredictionChart.calculateAccuracy.
    now destruct (truthy (last_price p)).
  - reflexivity.
  - intros h [p|] a; [|discriminate]. unfold PredictionChart.calculateAccuracy.
    destruct (negb (truthy (last_price p))); [discriminate|].
    destruct (negb (truthy _)); [discriminate|].
    intros E. injection E as <-. apply Math_max_num_not_below.
Qed.

(** Witness of X18: last close 101 against a last price of 110. *)
Lemma calculateAccuracy_not_negative_witness :
  exists a,
    PredictionChart.calculateAccuracy sample_bars
      (Some (mkPredictions None None 110)) = Some a
    /\ lt a 0 = false.
Proof.
  destruct (PredictionChart.calculateAccuracy sample_bars
              (Some (mkPredictions None None 110))) as [a|] eqn:E;
    [|vm_compute in E; discriminate].
  exists a. split; [reflexivity|].
  destruct calculateAccuracy_not_negative as (_ & _ & H). exact (H _ _ _ E).
Defined.

Lemma slice_tail_30 {A} (h : list A) :
  slice h (-30) (len h) = skipn (length h - 30) h.
Proof.
  unfold slice, rel_index. change (-30 <? 0) with true. cbv iota.
  pose proof (len_nonneg h) as H.
  destruct (Z.ltb_spec (len h) 0) as [?|_]; [lia|].
  rewrite Z.min_id.
  replace (Z.to_nat (Z.max (len h + -30) 0)) with (length h - 30)%nat
    by (unfold len; lia).
  apply firstn_all2. rewrite length_skipn. unfold len. lia.
Qed.

(** X19.  The chart data holds the last 30 bars of the history, or all of
    them when there are fewer, followed, when both the predictions and
    their dates are there, by one prediction row per predicted price and
    by nothing otherwise. *)
Theorem prepareChartData_rows :
  forall (h : list Bar) (p : option Predictions),
    let n_pred :=
      match p with
      | Some {| predictions := Some preds; dates := Some _ |} => length preds
      | _ => 0%nat
      end in
    length (PredictionChart.prepareChartData h p)
    = (Nat.min 30 (length h) + n_pred)%nat
    /\ firstn (Nat.min 30 (length h)) (PredictionChart.prepareChartData h p)
       = map PredictionChart.Historical (skipn (length h - 30) h)
    /\ Forall (fun row => match row with
                          | PredictionChart.Predicted _ _ => True
                          | PredictionChart.Historical _ => False
                          end)
         (skipn (Nat.min 30 (length h)) (PredictionChart.prepareChartData h p)).
Proof.
  intros h p. unfold PredictionChart.prepareChartData.
  rewrite slice_tail_30.
  set (hist := map PredictionChart.Historical (skipn (length h - 30) h)).
  assert (Lh : length hist = Nat.min 30 (length h))
    by (unfold hist; rewrite length_map, length_skipn; lia).
  destruct p as [[[preds|] [ds|] lp]|]; cbv zeta;
    try (rewrite <- Lh; split; [lia|];
         split; [apply firstn_all|rewrite skipn_all; constructor]).
  rewrite length_app. unfold mapi. rewrite length_mapi_from.
  split; [lia|]. rewrite <- Lh. split.
  - rewrite firstn_app, Nat.sub_diag, firstn_all. simpl. apply app_nil_r.
  - rewrite skipn_app, Nat.sub_diag, skipn_all. simpl.
    generalize 0. induction preds as [|x preds IH]; intros k; simpl;
      constructor; [exact I|apply IH].
Qed.


(** ** RSI without losses, and on a flat series *)

Lemma total_zeros (l : list number) :
  Forall (fun x => x = 0%float) l -> total l = 0%float.
Proof.
  unfold total. induction 1 as [|x l Hx _ IH]; [reflexivity|].
  subst x. exact IH.
Qed.

Lemma zeros_firstn (a : list number) (n : nat) :
  (forall j, 0 <= j < len a -> get a j = 0%float) ->
  Forall (fun x => x = 0%float) (firstn n a).
Proof.
  intros H. apply Forall_forall. intros x Hx.
  apply (In_nth _ _ NaN) in Hx. destruct Hx as (k & Hk & <-).
  rewrite length_firstn in Hk. rewrite nth_firstn.
  destruct (Nat.ltb_spec k n) as [_|?]; [|lia].
  specialize (H (Z.of_nat k)). unfold get, len in H.
  destruct (Z.ltb_spec (Z.of_nat k) 0) as [?|_]; [lia|].
  rewrite Nat2Z.id in H. apply H. lia.
Qed.

(** The 14-period exponential average of zeros is zero wherever it is
    defined. *)
Lemma calculateEMA_zeros (a : list number) (i : Z) :
  (forall j, 0 <= j < len a -> get a j = 0%float) ->
  13 <= i < len a -> get (calculateEMA a 14) i = 0%float.
Proof.
  intros H Hi. rewrite calculateEMA_push.
  replace i with (13 + Z.of_nat (Z.to_nat (i - 13))) in * by lia.
  revert Hi. induction (Z.to_nat (i - 13)) as [|k IH]; intros Hi.
  - rewrite get_push_loop by lia. unfold ema_entry.
    change (13 + Z.of_nat 0 <? 14 - 1) with false.
    change (13 + Z.of_nat 0 =? 14 - 1) with true. cbv iota.
    rewrite initial_sum_total by lia.
    rewrite (total_zeros (@zeros_firstn a _ H)).
    unfold Math_min. rewrite Z.min_l by lia. reflexivity.
  - rewrite get_push_loop by lia. unfold ema_entry at 1.
    destruct (Z.ltb_spec (13 + Z.of_nat (S k)) (14 - 1)) as [?|_]; [lia|].
    destruct (Z.eqb_spec (13 + Z.of_nat (S k)) (14 - 1)) as [?|_]; [lia|].
    replace (13 + Z.of_nat (S k) - 1) with (13 + Z.of_nat k) by lia.
    assert (P : get (push_loop (ema_entry a 14) (13 + Z.of_nat (S k)))
                    (13 + Z.of_nat k)
                = get (push_loop (ema_entry a 14) (len a))
                    (13 + Z.of_nat k))
      by (rewrite !get_push_loop by lia; reflexivity).
    rewrite P, IH by lia. rewrite H by lia. reflexivity.
Qed.

Lemma losses_zero (prices : list number) :
  no_losses prices ->
  forall j, 0 <= j < len (snd (price_changes prices)) ->
    get (snd (price_changes prices)) j = 0%float.
Proof.
  intros H j Hj. pose proof (len_price_changes prices) as [_ L].
  rewrite price_changes_push in *. cbn [snd] in *.
  rewrite get_push_loop by lia. unfold loss_entry.
  replace (j + 1 - 1) with (j + 1 - 1) by lia.
  unfold no_losses in H. specialize (H (j + 1) ltac:(lia)).
  now rewrite H.
Qed.

(** X20.  With the default period, a series in which no price change is
    negative has RSI 100 in the two components that smooth
    exponentially: the value of AIInsights.tsx on at least 15 bars, and
    every entry of TechnicalIndicators.tsx from index 27 on. *)
Theorem rsi_without_losses :
  forall data : list Bar,
    no_losses (map close data) ->
    (15 <= len data -> AIInsights.calculateRSI_default data = 100%float)
    /\ (forall i, 27 <= i < len data ->
          lookup (calculateRSI_default (map close data)) i
          = Some 100%float).
Proof.
  intros data H.
  pose proof (losses_zero H) as Z0.
  pose proof (len_price_changes (map close data)) as [Lg Ll].
  rewrite len_map_close in Lg, Ll.
  split.
  - intros H15. unfold AIInsights.calculateRSI_default, AIInsights.calculateRSI.
    destruct (Z.ltb_spec (len data) (14 + 1)) as [?|_]; [lia|].
    rewrite AI_changes.
    destruct (price_changes (map close data)) as [gains losses].
    cbn [fst snd] in *.
    rewrite (@AI_calculateEMA_last losses 14) by lia.
    rewrite calculateEMA_zeros by (assumption || lia).
    reflexivity.
  - intros i Hi. unfold calculateRSI_default.
    rewrite calculateRSI_entries by (rewrite ?len_map_close; lia).
    rewrite (@calculateEMA_zeros (snd (price_changes (map close data))))
      by (assumption || lia).
    reflexivity.
Qed.

(** Witness of X20: eighteen rising closes. *)
Lemma rsi_without_losses_witness :
  AIInsights.calculateRSI_default
    (map (fun c => mkBar String.EmptyString c c) (map of_Z (range 1 19)))
  = 100%float.
Proof.
  apply rsi_without_losses.
  - intros i Hi. change (1 <= i < 18) in Hi.
    assert (C : exists k : nat, (k < 17)%nat /\ i = 1 + Z.of_nat k)
      by (exists (Z.to_nat (i - 1)); lia).
    destruct C as (k & Hk & ->).
    do 17 (destruct k as [|k]; [reflexivity|]). lia.
  - vm_compute. discriminate.
Defined.

Lemma finite_minus_self (c : number) : finite c -> (c - c)%float = 0%float.
Proof.
  unfold finite, lt, Math_abs. rewrite ltb_spec, abs_spec. intros H.
  apply Prim2SF_inj. rewrite sub_spec.
  change (Prim2SF infinity) with (S754_infinity false) in H.
  destruct (Prim2SF c) as [s|s| |s m e]; try discriminate.
  - now destruct s.
  - unfold SF64sub, SFsub. rewrite Z.sub_diag. reflexivity.
Qed.

Lemma flat_no_losses (data : list Bar) (c : number) :
  finite c ->
  (forall i, 0 <= i < len data -> close_at data i = c) ->
  no_losses (map close data).
Proof.
  intros Hc H i Hi. rewrite len_map_close in Hi.
  change (get (map close data) i) with (close_at data i).
  change (get (map close data) (i - 1)) with (close_at data (i - 1)).
  rewrite !H by lia. now rewrite finite_minus_self.
Qed.

Lemma App_calculateRSI_flat (data : list Bar) (c : number) :
  finite c ->
  (forall i, 0 <= i < len data -> close_at data i = c) ->
  forall j x, 13 <= j ->
    lookup (App.calculateRSI data 14) j = Some x -> x = Some 0%float.
Proof.
  intros Hc H. unfold App.calculateRSI.
  set (body := fun (i : Z) '(rsi, gains, losses) => _).
  destruct (Z.le_gt_cases 1 (len data)) as [H1|H1].
  - assert (Inv : let s := for_loop 1 (len data) body
                             ([], 0%float, 0%float) in
                  snd (fst s) = 0%float /\ snd s = 0%float
                  /\ len (fst (fst s)) = len data - 1
                  /\ forall j x, 13 <= j ->
                       lookup (fst (fst s)) j = Some x -> x = Some 0%float).
    { apply for_loop_inv
        with (P := fun i s =>
                snd (fst s) = 0%float /\ snd s = 0%float
                /\ len (fst (fst s)) = i - 1
                /\ forall j x, 13 <= j ->
                     lookup (fst (fst s)) j = Some x -> x = Some 0%float).
      - exact H1.
      - repeat split. intros j x Hj E. unfold lookup in E.
        destruct (j <? 0); [discriminate|]. now destruct (Z.to_nat j).
      - intros i [[rsi gains] losses] Hi (Hg & Hl & Hn & Hv).
        cbn [fst snd] in *. subst gains losses. unfold body.
        rewrite !H by lia. rewrite (finite_minus_self Hc).
        assert (Push : forall v : option number,
                  (13 <= i - 1 -> v = Some 0%float) ->
                  forall j x, 13 <= j ->
                    lookup (push rsi v) j = Some x -> x = Some 0%float).
        { intros v Hv' j x Hj E.
          destruct (Z.lt_ge_cases j (len rsi)) as [L|G].
          - unfold push in E. rewrite lookup_app_l in E by lia.
            exact (Hv j x Hj E).
          - destruct (Z.eq_dec j (len rsi)) as [->|N].
            + rewrite lookup_push_last in E. injection E as <-.
              apply Hv'. lia.
            + apply lookup_some_range in E. rewrite len_push in E. lia. }
        change (gt 0 0) with false. change (lt 0 0) with false.
        destruct (Z.ltb_spec i 14) as [L|G].
        + cbv beta iota zeta. cbn [fst snd]. rewrite len_push.
          repeat split; try lia. apply Push. intros; lia.
        + destruct (Z.eqb_spec i 14) as [E|N]; cbv beta iota zeta;
            cbn [fst snd]; rewrite len_push; repeat split; try lia;
            apply Push; intros; reflexivity. }
    destruct (for_loop 1 (len data) body ([], 0%float, 0%float))
      as [[rsi gains] losses].
    cbn [fst snd] in Inv. apply Inv.
  - rewrite for_loop_empty by lia. intros j x Hj E. unfold lookup in E.
    destruct (j <? 0); [discriminate|]. now destruct (Z.to_nat j).
Qed.

(** X21.  On a flat series, every close the same finite number, the
    components disagree as far as they can: every number in the array of
    App.tsx is 0, while AIInsights.tsx returns 100 on at least 15 bars. *)
Theorem rsi_on_flat_series :
  forall (data : list Bar) (c : number),
    finite c ->
    (forall i, 0 <= i < len data -> close_at data i = c) ->
    (forall j, 13 <= j < len data - 1 ->
       lookup (App.calculateRSI_default data) j = Some (Some 0%float))
    /\ (15 <= len data -> AIInsights.calculateRSI_default data = 100%float).
Proof.
  intros data c Hc H. split.
  - intros j Hj. unfold App.calculateRSI_default.
    destruct (App_calculateRSI_shape data 14) as [Hl _].
    destruct (lookup (App.calculateRSI data 14) j) as [x|] eqn:E.
    + f_equal. exact (@App_calculateRSI_flat data c Hc H j x ltac:(lia) E).
    + exfalso. revert E. apply lookup_in_range. lia.
  - intros H15.
    pose proof (flat_no_losses data Hc H) as NL.
    pose proof (losses_zero NL) as Z0.
    pose proof (len_price_changes (map close data)) as [Lg Ll].
    rewrite len_map_close in Lg, Ll.
    unfold AIInsights.calculateRSI_default, AIInsights.calculateRSI.
    destruct (Z.ltb_spec (len data) (14 + 1)) as [?|_]; [lia|].
    rewrite AI_changes.
    destruct (price_changes (map close data)) as [gains losses].
    cbn [fst snd] in *.
    rewrite (@AI_calculateEMA_last losses 14) by lia.
    rewrite calculateEMA_zeros by (assumption || lia).
    reflexivity.
Qed.

(** Witness of X21: sixteen closes of 100. *)
Lemma rsi_on_flat_series_witness :
  AIInsights.calculateRSI_default
    (map (fun c => mkBar String.EmptyString c c) (repeat 100%float 16))
  = 100%float.
Proof.
  apply (@rsi_on_flat_series _ 100%float).
  - reflexivity.
  - intros i Hi. change (0 <= i < 16) in Hi.
    assert (C : exists k : nat, (k < 16)%nat /\ i = Z.of_nat k)
      by (exists (Z.to_nat i); lia).
    destruct C as (k & Hk & ->).
    do 16 (destruct k as [|k]; [reflexivity|]). lia.
  - vm_compute. discriminate.
Defined.
